(** * talkus-backend: post controller and use cases

    A shallow embedding of
    - [internal/usecases/user_usecase.go]   ([GetUser]),
    - [internal/usecases/post_usecase.go]   ([GetAllPosts], [CreatePost]),
    - [internal/controllers/post_controller.go] ([GetAll], [Create]).

    The handlers are straight-line Go code that talks to three
    collaborators (the repositories, the image host and the clock), writes
    to an [http.ResponseWriter] and to the process log.  They are embedded
    in a small monad that threads the mutable state and collects the
    sequence of collaborator calls, so that "is never invoked" and "is
    passed the request context" are statements about that sequence. *)

From Stdlib Require Import ZArith String Ascii List DecimalString.
From stdpp Require Import base gmap strings list sorting.

Open Scope string_scope.

(** ** Go values *)

(** A Go [error].  [errorString] is what [errors.New] builds; [foreignError]
    stands for any error value handed back by a collaborator (the
    repositories, the image host, [net/http]'s form parsing), told apart by
    a kind and carrying the text its [Error()] method returns. *)
Inductive error : Type :=
| errorString (s : string)
| foreignError (kind : nat) (msg : string).

Definition Error (e : error) : string :=
  match e with
  | errorString s => s
  | foreignError _ msg => msg
  end.

Module errors.
Definition New (text : string) : error := errorString text.
End errors.

(** [context.Context]: the background context, or a cancellable context
    the server derived for one request. *)
Inductive Context : Type :=
| ctxBackground
| ctxRequest (conn : nat).

Module context.
Definition Background : Context := ctxBackground.
End context.

(** [time.Time], as far as the handlers look at it. *)
Record Time : Type := mkTime { sec : Z; nsec : Z }.

Definition Unix (t : Time) : Z := sec t.

(** The line feed [fmt.Fprintln] and [json.Encoder.Encode] end with, and the
    double quote of JSON text. *)
Definition LF : string := String "010"%char EmptyString.
Definition DQ : string := String "034"%char EmptyString.

(** [fmt.Sprintf] with the verb [%d] on an integer. *)
Definition fmt_d (n : Z) : string := NilZero.string_of_int (Z.to_int n).

Module strings.
Definition HasPrefix (s pre : string) : bool := String.prefix pre s.
End strings.

(** ** Data model *)

(** Modelled from the spec: the declaration of [models.Post] is not part of
    the sources at hand.  The fields are the ones the controller's composite
    literal names; [ID] is the identifier "assigned by the persistence
    collaborator", left at its zero value by the literal. *)
Record Post : Type := mkPost {
  ID : string;
  Title : string;
  Content : string;
  ImageURL : string;
  Likes : Z;
  Dislikes : Z;
  IsFlagged : bool;
  CreatedAt : Time;
  UpdatedAt : Time
}.

(** A non-nil [*models.Post]: an address in the heap of posts. *)
Definition loc : Type := positive.

(** [multipart.File], [multipart.FileHeader] and the parsed form
    ([Request.Form] and [Request.MultipartForm.File]). *)
Record File : Type := mkFile { fd : nat }.

Record FileHeader : Type := mkFileHeader {
  Filename : string;
  Open : error + File
}.

Record Form : Type := mkForm {
  Value : gmap string (list string);
  FileParts : gmap string (list FileHeader)
}.

(** An incoming [*http.Request]: its header, its context and what parsing
    its body as a multipart form with a given memory limit yields. *)
Record Request : Type := mkRequest {
  Header : gmap string (list string);
  reqContext : Context;
  bodyParse : Z -> error + Form
}.

(** [uploader.UploadParams] (the fields the controller sets) and
    [uploader.UploadResult]. *)
Record UploadParams : Type := mkUploadParams {
  Folder : string;
  PublicID : string;
  Overwrite : option bool
}.

Record UploadResult : Type := mkUploadResult { SecureURL : string }.

(** The [http.ResponseWriter] of one request. *)
Record ResponseWriter : Type := mkResponseWriter {
  respHeader : gmap string (list string);
  respStatus : option Z;
  respBody : string
}.

Definition newResponseWriter : ResponseWriter :=
  {| respHeader := ∅; respStatus := None; respBody := "" |}.

Module http.
Definition StatusOK : Z := 200.
Definition StatusCreated : Z := 201.
Definition StatusBadRequest : Z := 400.
Definition StatusInternalServerError : Z := 500.

(** [Header.Get]: the first value stored under the key, or [""]. *)
Definition Get (h : gmap string (list string)) (key : string) : string :=
  match h !! key with
  | Some (v :: _) => v
  | _ => ""
  end.

(** [Request.FormValue] on a parsed form. *)
Definition FormValue (f : Form) (key : string) : string :=
  match Value f !! key with
  | Some (v :: _) => v
  | _ => ""
  end.

Definition ErrMissingFile : error :=
  errorString "http: no such file".

(** [Request.FormFile] on a parsed form: the first file stored under the
    key is opened; no file under the key is [ErrMissingFile]. *)
Definition FormFile (f : Form) (key : string) : error + File :=
  match FileParts f !! key with
  | Some (fh :: _) => Open fh
  | _ => inl ErrMissingFile
  end.
End http.

(** The user record [map[string]interface{}]; field values are kept as their
    JSON text. *)
Definition UserRecord : Type := gmap string string.

(** ** Collaborator calls *)

(** One entry per call that leaves the handler, with the arguments passed
    and the outcome received. *)
Inductive Event : Type :=
| EvParseMultipartForm (maxMemory : Z)
| EvNow (t : Time)
| EvUpload (ctx : Context) (f : File) (params : UploadParams)
           (res : error + UploadResult)
| EvClose (f : File)
| EvRepoCreate (ctx : Context) (p : loc) (v : option Post) (err : option error)
| EvRepoGetAll (ctx : Context) (err : option error)
| EvRepoGetUserByID (ctx : Context) (userID : string) (err : option error)
| EvLog (line : string).

Definition isRepoCreate (ev : Event) : bool :=
  match ev with EvRepoCreate _ _ _ _ => true | _ => false end.

Definition isUpload (ev : Event) : bool :=
  match ev with EvUpload _ _ _ _ => true | _ => false end.

Definition isLog (ev : Event) : bool :=
  match ev with EvLog _ => true | _ => false end.

(** The context a persistence or upload call was given, if the event is
    such a call. *)
Definition callContext (ev : Event) : option Context :=
  match ev with
  | EvUpload ctx _ _ _ => Some ctx
  | EvRepoCreate ctx _ _ _ => Some ctx
  | EvRepoGetAll ctx _ => Some ctx
  | EvRepoGetUserByID ctx _ _ => Some ctx
  | _ => None
  end.

(** ** The collaborators *)

(** The repositories, the image host, the clock and the JSON encoder, over
    a world [W] outside the process (database, image host, wall clock).  A
    repository receives pointers into the heap of posts and may write
    through them, so it transforms the heap together with the world.  The
    slice [[]*models.Post] that [GetAll] returns is [None] when it is nil
    and [Some l] when it is not, the empty [Some []] included.  The
    struct tags of [models.Post] are not in the sources at hand, so its
    JSON encoding is a collaborator too; [jsonPosts] encodes the elements
    of a slice that is not nil. *)
Class Collaborators (W : Type) : Type := {
  clock : W -> Time * W;
  cldUpload :
    Context -> File -> UploadParams -> W -> (error + UploadResult) * W;
  repoCreate :
    Context -> loc -> gmap loc Post -> W -> option error * gmap loc Post * W;
  repoGetAll :
    Context -> gmap loc Post -> W ->
    (option (list loc) * option error) * gmap loc Post * W;
  repoGetUserByID :
    Context -> string -> W -> (option UserRecord * option error) * W;
  jsonPost : Post -> string;
  jsonPosts : list (option Post) -> string
}.

(** ** The handler monad *)

(** What a handler can change: the world, the heap of posts and the
    response writer it was handed. *)
Record State (W : Type) : Type := mkState {
  world : W;
  heap : gmap loc Post;
  rw : ResponseWriter
}.
Arguments mkState {W} _ _ _.
Arguments world {W} _.
Arguments heap {W} _.
Arguments rw {W} _.

(** The outcome of a run: the value returned, the state left behind and
    the calls made, oldest first. *)
Record Out (W A : Type) : Type := mkOut {
  value : A;
  state : State W;
  events : list Event
}.
Arguments mkOut {W A} _ _ _.
Arguments value {W A} _.
Arguments state {W A} _.
Arguments events {W A} _.

Definition M (W A : Type) : Type := State W -> Out W A.

Definition ret {W A} (a : A) : M W A := fun s => mkOut a s [].

Definition bind {W A B} (m : M W A) (k : A -> M W B) : M W B :=
  fun s =>
    let o1 := m s in
    let o2 := k (value o1) (state o1) in
    mkOut (value o2) (state o2) (events o1 ++ events o2).

Notation "x <- m ;; k" := (bind m (fun x => k))
  (at level 100, m at next level, right associativity).
Notation "m ;;; k" := (bind m (fun _ => k))
  (at level 100, right associativity).

Definition emit {W} (ev : Event) : M W unit := fun s => mkOut tt s [ev].

Definition setWorld {W} (s : State W) (w : W) : State W :=
  {| world := w; heap := heap s; rw := rw s |}.

Definition setHeap {W} (s : State W) (h : gmap loc Post) : State W :=
  {| world := world s; heap := h; rw := rw s |}.

Definition setRw {W} (s : State W) (w : ResponseWriter) : State W :=
  {| world := world s; heap := heap s; rw := w |}.

(** [defer d] in front of [body]: [d] runs when [body] is left, on every
    path. *)
Definition deferring {W A} (d : M W unit) (body : M W A) : M W A :=
  a <- body ;; d ;;; ret a.

(** *** The response writer *)

(** [w.Header().Set(key, v)] *)
Definition headerSet {W} (key v : string) : M W unit := fun s =>
  let w := rw s in
  mkOut tt
    (setRw s {| respHeader := <[key := [v]]> (respHeader w);
                respStatus := respStatus w;
                respBody := respBody w |}) [].

(** [w.Header().Del(key)] *)
Definition headerDel {W} (key : string) : M W unit := fun s =>
  let w := rw s in
  mkOut tt
    (setRw s {| respHeader := delete key (respHeader w);
                respStatus := respStatus w;
                respBody := respBody w |}) [].

(** [w.WriteHeader(code)]: only the first status written counts. *)
Definition WriteHeader {W} (code : Z) : M W unit := fun s =>
  let w := rw s in
  mkOut tt
    (setRw s {| respHeader := respHeader w;
                respStatus := match respStatus w with
                              | Some c => Some c
                              | None => Some code
                              end;
                respBody := respBody w |}) [].

(** [w.Write(data)]: a status not yet written becomes [200]. *)
Definition writeBody {W} (data : string) : M W unit := fun s =>
  let w := rw s in
  mkOut tt
    (setRw s {| respHeader := respHeader w;
                respStatus := match respStatus w with
                              | Some c => Some c
                              | None => Some http.StatusOK
                              end;
                respBody := respBody w +:+ data |}) [].

(** [http.Error(w, msg, code)] *)
Definition httpError {W} (msg : string) (code : Z) : M W unit :=
  headerDel "Content-Length" ;;;
  headerSet "Content-Type" "text/plain; charset=utf-8" ;;;
  headerSet "X-Content-Type-Options" "nosniff" ;;;
  WriteHeader code ;;;
  writeBody (msg +:+ LF).

(** [log.Printf] *)
Definition logPrintf {W} (line : string) : M W unit := emit (EvLog line).

(** [r.ParseMultipartForm(maxMemory)] *)
Definition ParseMultipartForm {W} (r : Request) (maxMemory : Z)
  : M W (error + Form) := fun s =>
  mkOut (bodyParse r maxMemory) s [EvParseMultipartForm maxMemory].

(** [file.Close()] *)
Definition fileClose {W} (f : File) : M W unit := emit (EvClose f).

(** [&models.Post{...}]: a fresh cell holding the literal. *)
Definition newPost {W} (v : Post) : M W loc := fun s =>
  let p := fresh (dom (heap s)) in
  mkOut p (setHeap s (<[p := v]> (heap s))) [].

(** [json.NewEncoder(w).Encode(created)] on a [*models.Post]; a nil
    pointer is encoded as [null]. *)
Definition jsonNull : string := "null".

Section Handlers.

Context {W : Type} {C : Collaborators W}.

(** *** Calls to the collaborators *)

(** [time.Now()] *)
Definition timeNow : M W Time := fun s =>
  let '(t, w') := clock (world s) in
  mkOut t (setWorld s w') [EvNow t].

(** [c.cld.Upload.Upload(ctx, file, params)] *)
Definition Upload (ctx : Context) (f : File) (params : UploadParams)
  : M W (error + UploadResult) := fun s =>
  let '(res, w') := cldUpload ctx f params (world s) in
  mkOut res (setWorld s w') [EvUpload ctx f params res].

(** [u.repo.Create(ctx, p)] *)
Definition repoCreateCall (ctx : Context) (p : loc) : M W (option error) :=
  fun s =>
    let '(err, h', w') := repoCreate ctx p (heap s) (world s) in
    mkOut err (setWorld (setHeap s h') w')
          [EvRepoCreate ctx p (heap s !! p) err].

(** [u.repo.GetAll(ctx)] *)
Definition repoGetAllCall (ctx : Context)
  : M W (option (list loc) * option error) :=
  fun s =>
    let '(res, h', w') := repoGetAll ctx (heap s) (world s) in
    mkOut res (setWorld (setHeap s h') w') [EvRepoGetAll ctx (snd res)].

(** [u.repo.GetUserByID(ctx, userID)] *)
Definition repoGetUserByIDCall (ctx : Context) (userID : string)
  : M W (option UserRecord * option error) := fun s =>
  let '(res, w') := repoGetUserByID ctx userID (world s) in
  mkOut res (setWorld s w') [EvRepoGetUserByID ctx userID (snd res)].

(** [json.NewEncoder(w).Encode(v)] for a [*models.Post] and for a
    [[]*models.Post]: the pointers are followed when the value is
    encoded. *)
Definition encodePost (created : option loc) : M W unit := fun s =>
  let text :=
    match created with
    | Some p =>
        match heap s !! p with
        | Some v => jsonPost v
        | None => jsonNull
        end
    | None => jsonNull
    end in
  writeBody (text +:+ LF) s.

Definition encodePosts (posts : option (list loc)) : M W unit := fun s =>
  let text :=
    match posts with
    | Some l => jsonPosts (map (fun p => heap s !! p) l)
    | None => jsonNull
    end in
  writeBody (text +:+ LF) s.

(** *** internal/usecases/user_usecase.go *)

Definition GetUser (ctx : Context) (userID : string)
  : M W (option UserRecord * option error) :=
  if String.eqb userID "" then
    ret (None, Some (errors.New "falta el parámetro 'id'"))
  else
    res <- repoGetUserByIDCall ctx userID ;;
    match snd res with
    | Some _ => ret (None, Some (errors.New "usuario no encontrado"))
    | None => ret (fst res, None)
    end.

(** *** internal/usecases/post_usecase.go *)

Definition GetAllPosts (ctx : Context)
  : M W (option (list loc) * option error) :=
  repoGetAllCall ctx.

Definition CreatePost (ctx : Context) (p : loc)
  : M W (option loc * option error) :=
  err <- repoCreateCall ctx p ;;
  match err with
  | Some e => ret (None, Some e)
  | None => ret (Some p, None)
  end.

(** *** internal/controllers/post_controller.go *)

(** The body [json.Encoder] writes for
    [map[string]string{"error": "Error interno del servidor"}]. *)
Definition errorObject : string :=
  "{" +:+ DQ +:+ "error" +:+ DQ +:+ ":" +:+ DQ +:+
  "Error interno del servidor" +:+ DQ +:+ "}".

Definition GetAll (r : Request) : M W unit :=
  let ctx := context.Background in
  res <- GetAllPosts ctx ;;
  match snd res with
  | Some err =>
      logPrintf ("Error obteniendo posts: " +:+ Error err) ;;;
      headerSet "Content-Type" "application/json" ;;;
      WriteHeader http.StatusInternalServerError ;;;
      writeBody (errorObject +:+ LF)
  | None =>
      headerSet "Content-Type" "application/json" ;;;
      WriteHeader http.StatusOK ;;;
      encodePosts (fst res)
  end.

(** Lines 103 to 127 of [Create]: build the model, save it, answer. *)
Definition createTail (r : Request) (title content imageURL : string)
  : M W unit :=
  now <- timeNow ;;
  post <- newPost {| ID := "";
                     Title := title;
                     Content := content;
                     ImageURL := imageURL;
                     Likes := 0;
                     Dislikes := 0;
                     IsFlagged := false;
                     CreatedAt := now;
                     UpdatedAt := now |} ;;
  res <- CreatePost (reqContext r) post ;;
  match snd res with
  | Some err =>
      logPrintf ("Error creando post: " +:+ Error err) ;;;
      httpError "No se pudo crear el post" http.StatusInternalServerError
  | None =>
      headerSet "Content-Type" "application/json" ;;;
      WriteHeader http.StatusCreated ;;;
      encodePost (fst res)
  end.

Definition Create (r : Request) : M W unit :=
  let ct := http.Get (Header r) "Content-Type" in
  if negb (strings.HasPrefix ct "multipart/form-data") then
    httpError "Content-Type debe ser multipart/form-data"
              http.StatusBadRequest
  else
    parsed <- ParseMultipartForm r (Z.shiftl 10 20) ;;
    match parsed with
    | inl err =>
        httpError ("Error parsing form: " +:+ Error err) http.StatusBadRequest
    | inr form =>
        let title := http.FormValue form "title" in
        let content := http.FormValue form "content" in
        if String.eqb title "" || String.eqb content "" then
          httpError "title y content son obligatorios" http.StatusBadRequest
        else
          match http.FormFile form "image" with
          | inr file =>
              deferring (fileClose file)
                (t <- timeNow ;;
                 let uploadParams :=
                   {| Folder := "posts_images";
                      PublicID := "post_" +:+ fmt_d (Unix t);
                      Overwrite := Some true |} in
                 res <- Upload (reqContext r) file uploadParams ;;
                 match res with
                 | inl err =>
                     httpError ("Error subiendo imagen: " +:+ Error err)
                               http.StatusInternalServerError
                 | inr res => createTail r title content (SecureURL res)
                 end)
          | inl _ => createTail r title content ""
          end
    end.

End Handlers.

(** ** Vocabulary of the statements *)

(** The post the composite literal of [Create] builds. *)
Definition literalPost (title content imageURL : string) (now : Time) : Post :=
  {| ID := ""; Title := title; Content := content; ImageURL := imageURL;
     Likes := 0; Dislikes := 0; IsFlagged := false;
     CreatedAt := now; UpdatedAt := now |}.

(** What [createTail] answers, by the outcome of the save. *)
Definition tailStatus (err : option error) : Z :=
  match err with
  | Some _ => http.StatusInternalServerError
  | None => http.StatusCreated
  end.

Definition tailLog (err : option error) : list Event :=
  match err with
  | Some e => [EvLog ("Error creando post: " +:+ Error e)]
  | None => []
  end.

(** A parsed form carries an image part when at least one file is stored
    under the key "image". *)
Definition hasImagePart (f : Form) : bool :=
  match FileParts f !! "image" with
  | Some (_ :: _) => true
  | _ => false
  end.

(** The memory limit [Create] parses the form with. *)
Definition tenMiB : Z := 10 * 1024 * 1024.

(** The request is a multipart one. *)
Definition isMultipart (r : Request) : bool :=
  strings.HasPrefix (http.Get (Header r) "Content-Type") "multipart/form-data".

(** The request passes the first three steps of [Create]: it is a
    multipart one, its body parses into [form], and the title and content
    fields of [form] are not empty. *)
Definition validFields (r : Request) (form : Form) : Prop :=
  isMultipart r = true
  /\ bodyParse r tenMiB = inr form
  /\ http.FormValue form "title" <> ""
  /\ http.FormValue form "content" <> "".

(** The parameters [Create] uploads with when the clock reads [t] (the
    literal of lines 90 to 94). *)
Definition uploadParamsAt (t : Time) : UploadParams :=
  {| Folder := "posts_images";
     PublicID := "post_" +:+ fmt_d (Unix t);
     Overwrite := Some true |}.


Definition isRepoGetAll (ev : Event) : bool :=
  match ev with EvRepoGetAll _ _ => true | _ => false end.

(** ** A sample deployment

    Concrete collaborators, requests and states on which the statements
    below are exercised.  The world is a counter of clock readings. *)

Module Demo.

Definition epoch : Z := 1700000000.

Definition wallClock (w : nat) : Time * nat :=
  ({| sec := epoch + Z.of_nat w; nsec := 0 |}, S w).

(** The image host refuses the files with descriptors 0 and 1, each with
    an error of its own, and stores any other file. *)
Definition badKey : error :=
  foreignError 1 "cloudinary: Invalid api_key 3141".

Definition hostDown : error :=
  foreignError 2 "Post https://api.cloudinary.com/v1_1/talkus: i/o timeout".

Definition hostUpload (ctx : Context) (f : File) (params : UploadParams)
  (w : nat) : (error + UploadResult) * nat :=
  match fd f with
  | 0 => (inl badKey, w)
  | 1 => (inl hostDown, w)
  | _ => (inr {| SecureURL := "https://res.cloudinary.com/talkus/"
                              +:+ Folder params +:+ "/" +:+ PublicID params |},
          w)
  end.

Definition dbUnavailable : error :=
  foreignError 3 "rpc error: code = Unavailable".

Definition withID (v : Post) (id : string) : Post :=
  {| ID := id; Title := Title v; Content := Content v;
     ImageURL := ImageURL v; Likes := Likes v; Dislikes := Dislikes v;
     IsFlagged := IsFlagged v; CreatedAt := CreatedAt v;
     UpdatedAt := UpdatedAt v |}.

(** The post repository stores every post but those titled "boom", and
    writes the identifier it generated into the post it was given. *)
Definition dbCreate (ctx : Context) (p : loc) (h : gmap loc Post) (w : nat)
  : option error * gmap loc Post * nat :=
  match h !! p with
  | Some v =>
      if String.eqb (Title v) "boom" then (Some dbUnavailable, h, w)
      else (None, <[p := withID v ("post-" +:+ fmt_d (Z.of_nat w))]> h, w)
  | None => (Some (foreignError 4 "no post"), h, w)
  end.

(** The post repository lists the posts of the heap, the one allocated
    last first, appending to a slice that starts nil: with no post the
    slice it returns is nil. *)
Definition newestFirst (h : gmap loc Post) : list loc :=
  reverse (merge_sort Pos.le (map fst (map_to_list h))).

Definition dbGetAll (ctx : Context) (h : gmap loc Post) (w : nat)
  : (option (list loc) * option error) * gmap loc Post * nat :=
  ((match newestFirst h with
    | [] => None
    | l => Some l
    end, None), h, w).

Definition userNotFound : error :=
  foreignError 5 "rpc error: code = NotFound".

Definition connRefused : error :=
  foreignError 6 "dial tcp 10.0.0.7:443: connection refused".

Definition ana : UserRecord := {[ "name" := "Ana" ]}.

(** The user repository knows "u1"; looking up "u2" meets a broken
    connection, and any other user does not exist. *)
Definition dbGetUserByID (ctx : Context) (userID : string) (w : nat)
  : (option UserRecord * option error) * nat :=
  if String.eqb userID "u1" then ((Some ana, None), w)
  else if String.eqb userID "u2" then ((None, Some connRefused), w)
  else ((None, Some userNotFound), w).

Definition quoted (s : string) : string := DQ +:+ s +:+ DQ.

Definition encPost (v : Post) : string :=
  "{" +:+ quoted "Title" +:+ ":" +:+ quoted (Title v) +:+ ","
      +:+ quoted "Content" +:+ ":" +:+ quoted (Content v) +:+ ","
      +:+ quoted "ImageURL" +:+ ":" +:+ quoted (ImageURL v) +:+ ","
      +:+ quoted "Likes" +:+ ":" +:+ fmt_d (Likes v) +:+ ","
      +:+ quoted "Dislikes" +:+ ":" +:+ fmt_d (Dislikes v) +:+ ","
      +:+ quoted "IsFlagged" +:+ ":"
      +:+ (if IsFlagged v then "true" else "false") +:+ "}".

Definition encPosts (l : list (option Post)) : string :=
  "[" +:+ String.concat ","
            (map (fun o => match o with
                           | Some v => encPost v
                           | None => jsonNull
                           end) l) +:+ "]".

#[global] Instance collaborators : Collaborators nat := {|
  clock := wallClock;
  cldUpload := hostUpload;
  repoCreate := dbCreate;
  repoGetAll := dbGetAll;
  repoGetUserByID := dbGetUserByID;
  jsonPost := encPost;
  jsonPosts := encPosts
|}.

Definition s0 : State nat :=
  {| world := 0; heap := ∅; rw := newResponseWriter |}.

(** A state in which two posts have been saved. *)
Definition firstPost : Post :=
  withID (literalPost "Hello" "World" "" {| sec := epoch; nsec := 0 |})
         "post-0".

Definition secondPost : Post :=
  withID (literalPost "Second" "Thoughts" ""
                      {| sec := epoch + 60; nsec := 0 |})
         "post-1".

Definition s2 : State nat :=
  {| world := 61;
     heap := {[ 1%positive := firstPost; 2%positive := secondPost ]};
     rw := newResponseWriter |}.

Definition multipartHeader : gmap string (list string) :=
  {[ "Content-Type" := ["multipart/form-data; boundary=x7"] ]}.

Definition conn : Context := ctxRequest 7.

(** A form with the given fields and image parts, and a multipart request
    whose body parses into it. *)
Definition form (title content : string) (images : list FileHeader) : Form :=
  {| Value := {[ "title" := [title]; "content" := [content] ]};
     FileParts := match images with
                  | [] => ∅
                  | _ => {[ "image" := images ]}
                  end |}.

Definition postRequest (title content : string) (images : list FileHeader)
  : Request :=
  {| Header := multipartHeader;
     reqContext := conn;
     bodyParse := fun _ => inr (form title content images) |}.



(** A request with no body. *)
Definition notMultipart : error :=
  errorString "request Content-Type isn't multipart/form-data".

Definition getRequest : Request :=
  {| Header := ∅;
     reqContext := conn;
     bodyParse := fun _ => inl notMultipart |}.

Definition imagePart (n : nat) : FileHeader :=
  {| Filename := "photo.png"; Open := inr {| fd := n |} |}.

(** An image part whose temporary file cannot be opened any more. *)
Definition lostFile : error :=
  foreignError 8 "open /tmp/multipart-3141: no such file or directory".

Definition lostPart : FileHeader :=
  {| Filename := "photo.png"; Open := inl lostFile |}.

End Demo.

(** ** Vocabulary of the further statements *)

Definition isClose (ev : Event) : bool :=
  match ev with EvClose _ => true | _ => false end.

(** The writer [http.Error(w, msg, code)] leaves behind. *)
Definition errorWriter (msg : string) (code : Z) (w : ResponseWriter)
  : ResponseWriter :=
  {| respHeader :=
       <["X-Content-Type-Options" := ["nosniff"]]>
         (<["Content-Type" := ["text/plain; charset=utf-8"]]>
            (delete "Content-Length" (respHeader w)));
     respStatus := match respStatus w with
                   | Some c => Some c
                   | None => Some code
                   end;
     respBody := respBody w +:+ msg +:+ LF |}.

(** The writer a JSON answer leaves behind: the content type is set, the
    status is written, the encoder writes the text and a line feed. *)
Definition jsonWriter (code : Z) (text : string) (w : ResponseWriter)
  : ResponseWriter :=
  {| respHeader := <["Content-Type" := ["application/json"]]> (respHeader w);
     respStatus := match respStatus w with
                   | Some c => Some c
                   | None => Some code
                   end;
     respBody := respBody w +:+ text +:+ LF |}.

Section SaveVocabulary.

Context {W : Type} {C : Collaborators W}.

(** The address [&models.Post{...}] yields in a state. *)
Definition newLoc (s : State W) : loc := fresh (dom (heap s)).

(** The call [repo.Create] receives when [v] has just been allocated. *)
Definition saveCall (ctx : Context) (v : Post) (s : State W)
  : option error * gmap loc Post * W :=
  repoCreate ctx (newLoc s) (<[newLoc s := v]> (heap s)) (world s).

(** The JSON text of the post a pointer leads to. *)
Definition encodedAt (p : loc) (h : gmap loc Post) : string :=
  match h !! p with
  | Some v => jsonPost v
  | None => jsonNull
  end.

(** The first clock reading in a state, and the state after it. *)
Definition readingAt (s : State W) : Time := fst (clock (world s)).

Definition afterReading (s : State W) : State W :=
  setWorld s (snd (clock (world s))).

(** The outcome of the upload [Create] makes for a file in a state. *)
Definition uploadCall (ctx : Context) (f : File) (s : State W)
  : (error + UploadResult) * W :=
  cldUpload ctx f (uploadParamsAt (readingAt s)) (world (afterReading s)).

End SaveVocabulary.

(** ** A deployment whose post repository is down *)

Module Outage.

Definition dbGetAll (ctx : Context) (h : gmap loc Post) (w : nat)
  : (option (list loc) * option error) * gmap loc Post * nat :=
  ((None, Some Demo.dbUnavailable), h, w).

Definition collaborators : Collaborators nat := {|
  clock := Demo.wallClock;
  cldUpload := Demo.hostUpload;
  repoCreate := Demo.dbCreate;
  repoGetAll := dbGetAll;
  repoGetUserByID := Demo.dbGetUserByID;
  jsonPost := Demo.encPost;
  jsonPosts := Demo.encPosts
|}.

End Outage.

(** ** Reading a multipart body *)




Module multipart.







End multipart.

(** ** A request with a large image *)

Module Large.



End Large.

(** * Properties *)

Section Properties.

Context {W : Type} {C : Collaborators W}.

(** ** The use cases *)

Lemma GetUser_lookup (ctx : Context) (userID : string) (s : State W) :
  userID <> "" ->
  GetUser ctx userID s =
  let '(res, w') := repoGetUserByID ctx userID (world s) in
  {| value := match snd res with
              | Some _ => (None, Some (errors.New "usuario no encontrado"))
              | None => (fst res, None)
              end;
     state := setWorld s w';
     events := [EvRepoGetUserByID ctx userID (snd res)] |}.
Proof.
  intros Hne. unfold GetUser.
  destruct (String.eqb_spec userID "") as [->|_]; [congruence|].
  unfold bind, repoGetUserByIDCall.
  destruct (repoGetUserByID ctx userID (world s)) as [[u [e|]] w']; reflexivity.
Qed.

(** C5: when the lookup of a non-empty id fails, whatever the error,
    [GetUser] returns a nil record and the one error "usuario no
    encontrado"; two failing lookups, of any ids in any worlds with any
    errors, give the caller the same value. *)
Theorem GetUser_repo_error_collapsed
  (ctx1 ctx2 : Context) (id1 id2 : string) (s1 s2 : State W)
  (e1 e2 : error) :
  id1 <> "" -> id2 <> "" ->
  snd (fst (repoGetUserByID ctx1 id1 (world s1))) = Some e1 ->
  snd (fst (repoGetUserByID ctx2 id2 (world s2))) = Some e2 ->
  value (GetUser ctx1 id1 s1) =
    (None, Some (errors.New "usuario no encontrado"))
  /\ value (GetUser ctx2 id2 s2) = value (GetUser ctx1 id1 s1).
Proof.
  intros H1 H2 He1 He2.
  rewrite (GetUser_lookup ctx1 id1 s1 H1), (GetUser_lookup ctx2 id2 s2 H2).
  destruct (repoGetUserByID ctx1 id1 (world s1)) as [[u1 o1] w1].
  destruct (repoGetUserByID ctx2 id2 (world s2)) as [[u2 o2] w2].
  simpl in *. subst. split; reflexivity.
Qed.

(** C6: on the empty id [GetUser] returns a nil record and the error
    "falta el parámetro 'id'", makes no call at all (so none to the
    repository's lookup) and leaves the state as it was. *)
Theorem GetUser_empty_id (ctx : Context) (s : State W) :
  value (GetUser ctx "" s) =
    (None, Some (errors.New "falta el parámetro 'id'"))
  /\ events (GetUser ctx "" s) = []
  /\ state (GetUser ctx "" s) = s.
Proof. repeat split. Qed.

(** C7: [CreatePost] makes exactly one call, [repo.Create] on the pointer
    it was given; if that call returns an error, [CreatePost] returns nil
    and that very error; otherwise it returns the pointer it was given and
    no error, and the heap is the one the repository left. *)
Theorem CreatePost_result (ctx : Context) (p : loc) (s : State W) :
  let out := CreatePost ctx p s in
  let call := repoCreate ctx p (heap s) (world s) in
  events out = [EvRepoCreate ctx p (heap s !! p) (fst (fst call))]
  /\ heap (state out) = snd (fst call)
  /\ world (state out) = snd call
  /\ rw (state out) = rw s
  /\ value out = match fst (fst call) with
                 | Some e => (None, Some e)
                 | None => (Some p, None)
                 end.
Proof.
  unfold CreatePost, bind, repoCreateCall. cbv zeta.
  destruct (repoCreate ctx p (heap s) (world s)) as [[[e|] h'] w'];
    repeat split.
Qed.

(** ** The response writer *)

Lemma httpError_run (msg : string) (code : Z) (s : State W) :
  let out := httpError msg code s in
  events out = []
  /\ (respStatus (rw s) = None -> respStatus (rw (state out)) = Some code)
  /\ respBody (rw (state out)) = respBody (rw s) +:+ msg +:+ LF
  /\ heap (state out) = heap s
  /\ world (state out) = world s.
Proof.
  cbv zeta. unfold httpError, bind. simpl.
  repeat split. intros ->. reflexivity.
Qed.

(** ** The Create flow, from the construction of the post on *)

Lemma createTail_run (r : Request) (title content imageURL : string)
  (s : State W) :
  let out := createTail r title content imageURL s in
  let now := fst (clock (world s)) in
  let p := fresh (dom (heap s)) in
  let post := literalPost title content imageURL now in
  let call := repoCreate (reqContext r) p (<[p := post]> (heap s))
                         (snd (clock (world s))) in
  let err := fst (fst call) in
  events out = EvNow now :: EvRepoCreate (reqContext r) p (Some post) err
               :: tailLog err
  /\ (respStatus (rw s) = None ->
      respStatus (rw (state out)) = Some (tailStatus err))
  /\ (forall e, err = Some e ->
      respBody (rw (state out)) =
      respBody (rw s) +:+ "No se pudo crear el post" +:+ LF).
Proof.
  cbv zeta. unfold createTail, bind, timeNow, newPost, CreatePost, bind,
    repoCreateCall.
  destruct (clock (world s)) as [now w1]. simpl.
  rewrite lookup_insert_eq.
  destruct (repoCreate _ _ _ _) as [[[e|] h2] w2]; simpl.
  - split; [reflexivity|]. split.
    + intros Hfresh. rewrite Hfresh. reflexivity.
    + intros e' _. reflexivity.
  - split; [reflexivity|]. split.
    + intros Hfresh. unfold encodePost, writeBody. simpl. rewrite Hfresh.
      reflexivity.
    + intros e' He'. discriminate.
Qed.

(** ** The paths through [Create] *)

Lemma shift_tenMiB : Z.shiftl 10 20 = tenMiB.
Proof. reflexivity. Qed.

Lemma Create_not_multipart (r : Request) (s : State W) :
  isMultipart r = false ->
  Create r s =
  httpError "Content-Type debe ser multipart/form-data"
            http.StatusBadRequest s.
Proof.
  unfold isMultipart, Create. intros ->. reflexivity.
Qed.

Lemma Create_parse_error (r : Request) (e : error) (s : State W) :
  isMultipart r = true ->
  bodyParse r tenMiB = inl e ->
  Create r s =
  (ParseMultipartForm r tenMiB ;;;
   httpError ("Error parsing form: " +:+ Error e) http.StatusBadRequest) s.
Proof.
  unfold isMultipart, Create. intros -> Hparse. rewrite shift_tenMiB.
  unfold bind, ParseMultipartForm. simpl. rewrite Hparse. reflexivity.
Qed.

Lemma Create_empty_field (r : Request) (form : Form) (s : State W) :
  isMultipart r = true ->
  bodyParse r tenMiB = inr form ->
  http.FormValue form "title" = "" \/ http.FormValue form "content" = "" ->
  Create r s =
  (ParseMultipartForm r tenMiB ;;;
   httpError "title y content son obligatorios" http.StatusBadRequest) s.
Proof.
  unfold isMultipart, Create. intros -> Hparse Hempty. rewrite shift_tenMiB.
  unfold bind, ParseMultipartForm. simpl. rewrite Hparse.
  assert (String.eqb (http.FormValue form "title") ""
          || String.eqb (http.FormValue form "content") "" = true) as ->.
  { destruct Hempty as [-> | ->]; [reflexivity | apply orb_true_r]. }
  reflexivity.
Qed.

Lemma validFields_eqb (r : Request) (form : Form) :
  validFields r form ->
  String.eqb (http.FormValue form "title") ""
  || String.eqb (http.FormValue form "content") "" = false.
Proof.
  intros (_ & _ & Ht & Hc).
  apply orb_false_intro; apply String.eqb_neq; assumption.
Qed.

Lemma Create_without_file (r : Request) (form : Form) (e : error)
  (s : State W) :
  validFields r form ->
  http.FormFile form "image" = inl e ->
  Create r s =
  (ParseMultipartForm r tenMiB ;;;
   createTail r (http.FormValue form "title")
              (http.FormValue form "content") "") s.
Proof.
  intros Hv Hfile. pose proof (validFields_eqb r form Hv) as Heqb.
  destruct Hv as (Hm & Hparse & _ & _).
  unfold isMultipart in Hm. unfold Create. rewrite Hm, shift_tenMiB.
  unfold bind at 1 3, ParseMultipartForm. simpl.
  rewrite Hparse, Heqb, Hfile. reflexivity.
Qed.

Lemma Create_with_file (r : Request) (form : Form) (f : File)
  (s : State W) :
  validFields r form ->
  http.FormFile form "image" = inr f ->
  Create r s =
  (ParseMultipartForm r tenMiB ;;;
   deferring (fileClose f)
     (t <- timeNow ;;
      res <- Upload (reqContext r) f (uploadParamsAt t) ;;
      match res with
      | inl err =>
          httpError ("Error subiendo imagen: " +:+ Error err)
                    http.StatusInternalServerError
      | inr res =>
          createTail r (http.FormValue form "title")
                     (http.FormValue form "content") (SecureURL res)
      end)) s.
Proof.
  intros Hv Hfile. pose proof (validFields_eqb r form Hv) as Heqb.
  destruct Hv as (Hm & Hparse & _ & _).
  unfold isMultipart in Hm. unfold Create. rewrite Hm, shift_tenMiB.
  unfold bind at 1 3, ParseMultipartForm. simpl.
  rewrite Hparse, Heqb, Hfile. reflexivity.
Qed.

Lemma Create_paths (r : Request) (s : State W) :
  (isMultipart r = false
   /\ Create r s =
      httpError "Content-Type debe ser multipart/form-data"
                http.StatusBadRequest s)
  \/ (exists e,
       isMultipart r = true /\ bodyParse r tenMiB = inl e
       /\ Create r s =
          (ParseMultipartForm r tenMiB ;;;
           httpError ("Error parsing form: " +:+ Error e)
                     http.StatusBadRequest) s)
  \/ (exists form,
       isMultipart r = true /\ bodyParse r tenMiB = inr form
       /\ (http.FormValue form "title" = ""
           \/ http.FormValue form "content" = "")
       /\ Create r s =
          (ParseMultipartForm r tenMiB ;;;
           httpError "title y content son obligatorios"
                     http.StatusBadRequest) s)
  \/ (exists form e,
       validFields r form /\ http.FormFile form "image" = inl e
       /\ Create r s =
          (ParseMultipartForm r tenMiB ;;;
           createTail r (http.FormValue form "title")
                      (http.FormValue form "content") "") s)
  \/ (exists form f,
       validFields r form /\ http.FormFile form "image" = inr f
       /\ Create r s =
          (ParseMultipartForm r tenMiB ;;;
           deferring (fileClose f)
             (t <- timeNow ;;
              res <- Upload (reqContext r) f (uploadParamsAt t) ;;
              match res with
              | inl err =>
                  httpError ("Error subiendo imagen: " +:+ Error err)
                            http.StatusInternalServerError
              | inr res =>
                  createTail r (http.FormValue form "title")
                             (http.FormValue form "content") (SecureURL res)
              end)) s).
Proof.
  destruct (isMultipart r) eqn:Hm.
  2:{ left. split; [reflexivity|]. by apply Create_not_multipart. }
  right. destruct (bodyParse r tenMiB) as [e|form] eqn:Hparse.
  { left. exists e. repeat split. by apply Create_parse_error. }
  right.
  destruct (String.eqb_spec (http.FormValue form "title") "") as [Ht|Ht].
  { left. exists form. repeat split; auto.
    apply (Create_empty_field r form); auto. }
  destruct (String.eqb_spec (http.FormValue form "content") "") as [Hc|Hc].
  { left. exists form. repeat split; auto.
    apply (Create_empty_field r form); auto. }
  right. assert (validFields r form) as Hv by (repeat split; assumption).
  destruct (http.FormFile form "image") as [e|f] eqn:Hfile.
  - left. exists form, e. repeat split; try assumption.
    by apply (Create_without_file r form e).
  - right. exists form, f. repeat split; try assumption.
    by apply (Create_with_file r form f).
Qed.

(** ** What each path does *)

Lemma parse_then {A : Type} (r : Request) (n : Z) (k : M W A) (s : State W) :
  (ParseMultipartForm r n ;;; k) s =
  {| value := value (k s);
     state := state (k s);
     events := EvParseMultipartForm n :: events (k s) |}.
Proof. reflexivity. Qed.

Lemma reject_run (r : Request) (msg : string) (code : Z) (s : State W) :
  let out := (ParseMultipartForm r tenMiB ;;; httpError msg code) s in
  events out = [EvParseMultipartForm tenMiB]
  /\ (respStatus (rw s) = None -> respStatus (rw (state out)) = Some code)
  /\ respBody (rw (state out)) = respBody (rw s) +:+ msg +:+ LF
  /\ heap (state out) = heap s.
Proof.
  cbv zeta. rewrite parse_then. cbn [events state value].
  destruct (httpError_run msg code s) as (-> & Hst & Hbody & Hh & _).
  auto.
Qed.

Lemma save_run (r : Request) (title content : string) (s : State W) :
  let out := (ParseMultipartForm r tenMiB ;;;
              createTail r title content "") s in
  let now := fst (clock (world s)) in
  let p := fresh (dom (heap s)) in
  let post := literalPost title content "" now in
  let call := repoCreate (reqContext r) p (<[p := post]> (heap s))
                         (snd (clock (world s))) in
  let err := fst (fst call) in
  events out = EvParseMultipartForm tenMiB :: EvNow now
               :: EvRepoCreate (reqContext r) p (Some post) err
               :: tailLog err
  /\ (respStatus (rw s) = None ->
      respStatus (rw (state out)) = Some (tailStatus err))
  /\ (forall e, err = Some e ->
      respBody (rw (state out)) =
      respBody (rw s) +:+ "No se pudo crear el post" +:+ LF).
Proof.
  cbv zeta.
  destruct (createTail_run r title content "" s) as (Hev & Hst & Hbody).
  rewrite parse_then. cbn [events state value]. rewrite Hev. auto.
Qed.

Lemma upload_run (r : Request) (title content : string) (f : File)
  (s : State W) :
  let out :=
    (ParseMultipartForm r tenMiB ;;;
     deferring (fileClose f)
       (t <- timeNow ;;
        res <- Upload (reqContext r) f (uploadParamsAt t) ;;
        match res with
        | inl err =>
            httpError ("Error subiendo imagen: " +:+ Error err)
                      http.StatusInternalServerError
        | inr res => createTail r title content (SecureURL res)
        end)) s in
  let t := fst (clock (world s)) in
  let up := cldUpload (reqContext r) f (uploadParamsAt t)
                      (snd (clock (world s))) in
  match fst up with
  | inl err =>
      events out =
        [EvParseMultipartForm tenMiB; EvNow t;
         EvUpload (reqContext r) f (uploadParamsAt t) (inl err); EvClose f]
      /\ (respStatus (rw s) = None ->
          respStatus (rw (state out)) = Some http.StatusInternalServerError)
      /\ respBody (rw (state out)) =
         respBody (rw s) +:+ ("Error subiendo imagen: " +:+ Error err) +:+ LF
      /\ heap (state out) = heap s
  | inr ur =>
      let tail := createTail r title content (SecureURL ur)
                             (setWorld s (snd up)) in
      events out =
        EvParseMultipartForm tenMiB :: EvNow t
        :: EvUpload (reqContext r) f (uploadParamsAt t) (inr ur)
        :: (events tail ++ [EvClose f])%list
      /\ state out = state tail
  end.
Proof.
  cbv zeta. rewrite parse_then. cbn [events state value].
  unfold deferring, bind, timeNow, Upload, fileClose, emit, ret.
  destruct (clock (world s)) as [t w1]. cbn -[createTail httpError].
  destruct (cldUpload _ _ _ _) as [[err|ur] w2]; cbn -[createTail httpError].
  - destruct (httpError_run ("Error subiendo imagen: " +:+ Error err)
                http.StatusInternalServerError (setWorld (setWorld s w1) w2))
      as (-> & Hst & Hbody & Hh & _).
    auto.
  - split; reflexivity.
Qed.

Lemma no_image_part_FormFile (form : Form) :
  hasImagePart form = false ->
  http.FormFile form "image" = inl http.ErrMissingFile.
Proof.
  unfold hasImagePart, http.FormFile.
  destruct (FileParts form !! "image") as [[|fh l]|]; by intros.
Qed.

(** ** The Create flow *)

(** C1: a request that is multipart, parses, has a non-empty title and a
    non-empty content and carries no image part makes [Create] call the
    repository's create operation exactly once, on a post whose title and
    content are the fields of the form, whose [ImageURL] is empty, whose
    [Likes] and [Dislikes] are 0, whose [IsFlagged] is false and whose
    [CreatedAt] equals its [UpdatedAt]. *)
Theorem Create_no_image_post_fields (r : Request) (form : Form)
  (s : State W) :
  validFields r form ->
  hasImagePart form = false ->
  exists p post err,
    List.filter isRepoCreate (events (Create r s)) =
      [EvRepoCreate (reqContext r) p (Some post) err]
    /\ Title post = http.FormValue form "title"
    /\ Content post = http.FormValue form "content"
    /\ ImageURL post = ""
    /\ Likes post = 0%Z
    /\ Dislikes post = 0%Z
    /\ IsFlagged post = false
    /\ CreatedAt post = UpdatedAt post.
Proof.
  intros Hv Hnone.
  rewrite (Create_without_file r form _ s Hv (no_image_part_FormFile _ Hnone)).
  destruct (save_run r (http.FormValue form "title")
              (http.FormValue form "content") s) as (Hev & _).
  rewrite Hev. eexists _, _, _. split.
  - cbn [List.filter isRepoCreate]. f_equal.
    destruct (fst (fst (repoCreate _ _ _ _))); reflexivity.
  - repeat split.
Qed.

(** C10: when reading the image part fails, with whatever error (the part
    is missing, or it cannot be opened), [Create] does exactly what it does
    on a form with no image: it parses, then builds and saves the post with
    an empty [ImageURL].  No upload is made, the repository's create
    operation is called once on a post with an empty [ImageURL], and the
    answer depends on the outcome of the save alone: 201, or 500 with the
    fixed message of a failed save. *)
Theorem Create_image_error_discarded (r : Request) (form : Form) (e : error)
  (s : State W) :
  validFields r form ->
  http.FormFile form "image" = inl e ->
  respStatus (rw s) = None ->
  Create r s =
    (ParseMultipartForm r tenMiB ;;;
     createTail r (http.FormValue form "title")
                (http.FormValue form "content") "") s
  /\ List.filter isUpload (events (Create r s)) = []
  /\ exists p post err,
       List.filter isRepoCreate (events (Create r s)) =
         [EvRepoCreate (reqContext r) p (Some post) err]
       /\ ImageURL post = ""
       /\ respStatus (rw (state (Create r s))) = Some (tailStatus err)
       /\ (forall e', err = Some e' ->
           respBody (rw (state (Create r s))) =
           respBody (rw s) +:+ "No se pudo crear el post" +:+ LF).
Proof.
  intros Hv Hfile Hfresh.
  rewrite (Create_without_file r form e s Hv Hfile).
  split; [reflexivity|].
  destruct (save_run r (http.FormValue form "title")
              (http.FormValue form "content") s) as (Hev & Hst & Hbody).
  rewrite Hev. split.
  - cbn [List.filter isUpload].
    destruct (fst (fst (repoCreate _ _ _ _))); reflexivity.
  - eexists _, _, _. split.
    + cbn [List.filter isRepoCreate]. f_equal.
      destruct (fst (fst (repoCreate _ _ _ _))); reflexivity.
    + split; [reflexivity|]. split; [exact (Hst Hfresh)|exact Hbody].
Qed.

(** C2: a request whose title field or content field is empty is answered
    with status 400 and the repository's create operation is not called;
    the heap of posts is left as it was.  The hypothesis reads the fields as
    [Create] does, off the form the body parses into; a request that is
    turned down before its fields are read (not multipart, or a body that
    does not parse) is answered with 400 all the same.  When the fields are
    read, the body of the answer is the fixed message. *)
Theorem Create_empty_field_400 (r : Request) (s : State W) :
  respStatus (rw s) = None ->
  (forall form, bodyParse r tenMiB = inr form ->
     http.FormValue form "title" = "" \/ http.FormValue form "content" = "") ->
  respStatus (rw (state (Create r s))) = Some http.StatusBadRequest
  /\ List.filter isRepoCreate (events (Create r s)) = []
  /\ heap (state (Create r s)) = heap s
  /\ (forall form, isMultipart r = true -> bodyParse r tenMiB = inr form ->
      respBody (rw (state (Create r s))) =
      respBody (rw s) +:+ "title y content son obligatorios" +:+ LF).
Proof.
  intros Hfresh Hempty.
  destruct (Create_paths r s)
    as [(Hm & ->) | [(e & Hm & Hp & ->) | [(form & Hm & Hp & _ & ->)
       | [(form & e & Hv & _) | (form & f & Hv & _)]]]].
  - destruct (httpError_run "Content-Type debe ser multipart/form-data"
                http.StatusBadRequest s) as (-> & Hst & _ & Hh & _).
    repeat split; auto. intros form Hm'. congruence.
  - destruct (reject_run r ("Error parsing form: " +:+ Error e)
                http.StatusBadRequest s) as (-> & Hst & _ & Hh).
    repeat split; auto. intros form _ Hp'. congruence.
  - destruct (reject_run r "title y content son obligatorios"
                http.StatusBadRequest s) as (-> & Hst & Hbody & Hh).
    repeat split; auto.
  - destruct Hv as (_ & Hp & Ht & Hc). destruct (Hempty form Hp); contradiction.
  - destruct Hv as (_ & Hp & Ht & Hc). destruct (Hempty form Hp); contradiction.
Qed.


Lemma tailLog_no_upload (err : option error) (ev : Event) :
  In ev (tailLog err) -> isUpload ev = false.
Proof. destruct err; simpl; [intros [<-|[]]; reflexivity | intros []]. Qed.

(** C4: if a call to the image host made by [Create] returned an error,
    the answer has status 500, the repository's create operation was not
    called, and no post was allocated. *)
Theorem Create_upload_error_500 (r : Request) (s : State W)
  (ctx : Context) (f : File) (params : UploadParams) (e : error) :
  respStatus (rw s) = None ->
  In (EvUpload ctx f params (inl e)) (events (Create r s)) ->
  respStatus (rw (state (Create r s))) = Some http.StatusInternalServerError
  /\ List.filter isRepoCreate (events (Create r s)) = []
  /\ heap (state (Create r s)) = heap s.
Proof.
  intros Hfresh.
  destruct (Create_paths r s)
    as [(Hm & ->) | [(e' & Hm & Hp & ->) | [(form & Hm & Hp & _ & ->)
       | [(form & e' & Hv & _ & ->) | (form & f' & Hv & _ & ->)]]]].
  - destruct (httpError_run "Content-Type debe ser multipart/form-data"
                http.StatusBadRequest s) as (-> & _). intros [].
  - destruct (reject_run r ("Error parsing form: " +:+ Error e')
                http.StatusBadRequest s) as (-> & _).
    intros [Heq|[]]. discriminate.
  - destruct (reject_run r "title y content son obligatorios"
                http.StatusBadRequest s) as (-> & _).
    intros [Heq|[]]. discriminate.
  - destruct (save_run r (http.FormValue form "title")
                (http.FormValue form "content") s) as (-> & _).
    intros [Heq|[Heq|[Heq|Hin]]]; try discriminate.
    apply tailLog_no_upload in Hin. discriminate.
  - pose proof (upload_run r (http.FormValue form "title")
                  (http.FormValue form "content") f' s) as Hrun.
    cbv zeta in Hrun.
    destruct (fst (cldUpload _ _ _ _)) as [err|ur].
    + destruct Hrun as (-> & Hst & _ & Hh). intros _. auto.
    + destruct Hrun as (-> & _).
      destruct (createTail_run r (http.FormValue form "title")
                  (http.FormValue form "content") (SecureURL ur)
                  (setWorld s (snd (cldUpload (reqContext r) f'
                     (uploadParamsAt (fst (clock (world s))))
                     (snd (clock (world s))))))) as (-> & _).
      intros [Heq|[Heq|[Heq|Hin]]]; try discriminate.
      apply in_app_or in Hin as [[Heq|[Heq|Hin]]|[Heq|[]]]; try discriminate.
      apply tailLog_no_upload in Hin. discriminate.
Qed.


(** ** What the answers to collaborator failures carry *)

(** A failed save is logged with its detail, and the answer carries the
    fixed message only. *)
Lemma Create_save_error_generic (r : Request) (form : Form) (e e' : error)
  (s : State W) :
  validFields r form ->
  http.FormFile form "image" = inl e ->
  respStatus (rw s) = None ->
  forall p v, In (EvRepoCreate (reqContext r) p v (Some e'))
                 (events (Create r s)) ->
    respStatus (rw (state (Create r s))) =
      Some http.StatusInternalServerError
    /\ respBody (rw (state (Create r s))) =
       respBody (rw s) +:+ "No se pudo crear el post" +:+ LF
    /\ In (EvLog ("Error creando post: " +:+ Error e'))
          (events (Create r s)).
Proof.
  intros Hv Hfile Hfresh.
  rewrite (Create_without_file r form e s Hv Hfile).
  destruct (save_run r (http.FormValue form "title")
              (http.FormValue form "content") s) as (-> & Hst & Hbody).
  specialize (Hst Hfresh).
  destruct (fst (fst (repoCreate _ _ _ _))) as [err|].
  - intros p v [Heq|[Heq|[Heq|[Heq|[]]]]]; try discriminate.
    injection Heq as _ _ ->. split; [exact Hst|]. split; [by eapply Hbody|].
    right. right. right. by left.
  - intros p v [Heq|[Heq|[Heq|[]]]]; discriminate.
Qed.

(** A failed upload is not logged, and the answer carries the message of
    the upload error after a fixed prefix. *)
Lemma Create_upload_error_response (r : Request) (form : Form) (f : File)
  (e : error) (s : State W) :
  validFields r form ->
  http.FormFile form "image" = inr f ->
  respStatus (rw s) = None ->
  fst (cldUpload (reqContext r) f (uploadParamsAt (fst (clock (world s))))
                 (snd (clock (world s)))) = inl e ->
  respStatus (rw (state (Create r s))) = Some http.StatusInternalServerError
  /\ respBody (rw (state (Create r s))) =
     respBody (rw s) +:+ ("Error subiendo imagen: " +:+ Error e) +:+ LF
  /\ List.filter isLog (events (Create r s)) = [].
Proof.
  intros Hv Hfile Hfresh Hup.
  rewrite (Create_with_file r form f s Hv Hfile).
  pose proof (upload_run r (http.FormValue form "title")
                (http.FormValue form "content") f s) as Hrun.
  cbv zeta in Hrun. rewrite Hup in Hrun.
  destruct Hrun as (-> & Hst & Hbody & _). auto.
Qed.

(** ** The contexts handed to the collaborators *)

(** Every upload and every save [Create] makes is given the context of
    the request. *)
Lemma Create_calls_request_context (r : Request) (s : State W)
  (ev : Event) (ctx : Context) :
  In ev (events (Create r s)) ->
  callContext ev = Some ctx ->
  ctx = reqContext r.
Proof.
  destruct (Create_paths r s)
    as [(Hm & ->) | [(e' & Hm & Hp & ->) | [(form & Hm & Hp & _ & ->)
       | [(form & e' & Hv & _ & ->) | (form & f' & Hv & _ & ->)]]]].
  - destruct (httpError_run "Content-Type debe ser multipart/form-data"
                http.StatusBadRequest s) as (-> & _). intros [].
  - destruct (reject_run r ("Error parsing form: " +:+ Error e')
                http.StatusBadRequest s) as (-> & _).
    intros [<-|[]]. discriminate.
  - destruct (reject_run r "title y content son obligatorios"
                http.StatusBadRequest s) as (-> & _).
    intros [<-|[]]. discriminate.
  - destruct (save_run r (http.FormValue form "title")
                (http.FormValue form "content") s) as (-> & _).
    destruct (fst (fst (repoCreate _ _ _ _)));
      simpl; intros Hin Hctx; intuition (subst; simpl in *; congruence).
  - pose proof (upload_run r (http.FormValue form "title")
                  (http.FormValue form "content") f' s) as Hrun.
    cbv zeta in Hrun.
    destruct (fst (cldUpload _ _ _ _)) as [err|ur].
    + destruct Hrun as (-> & _).
      simpl; intros Hin Hctx; intuition (subst; simpl in *; congruence).
    + destruct Hrun as (-> & _).
      destruct (createTail_run r (http.FormValue form "title")
                  (http.FormValue form "content") (SecureURL ur)
                  (setWorld s (snd (cldUpload (reqContext r) f'
                     (uploadParamsAt (fst (clock (world s))))
                     (snd (clock (world s))))))) as (-> & _).
      destruct (fst (fst (repoCreate _ _ _ _)));
        simpl; intros Hin Hctx; intuition (subst; simpl in *; congruence).
Qed.

(** C8 (the [GetAll] half fails): [GetAll] makes one call to the
    repository, and the context it passes is [context.Background()],
    whatever the context of the request is. *)
Theorem GetAll_passes_background_context (r : Request) (s : State W) :
  map callContext (List.filter isRepoGetAll (events (GetAll r s))) =
    [Some context.Background].
Proof.
  unfold GetAll, GetAllPosts, bind, repoGetAllCall.
  destruct (repoGetAll context.Background (heap s) (world s))
    as [[[posts [e|]] h'] w']; reflexivity.
Qed.

End Properties.

(** [GetAll] on the sample deployment: the request comes with the context
    of its connection, the repository is called with the background
    context. *)
Example GetAll_sample :
  reqContext Demo.getRequest = ctxRequest 7
  /\ events (GetAll Demo.getRequest Demo.s0) =
     [EvRepoGetAll ctxBackground None].
Proof. split; reflexivity. Qed.

(** ** The statements on the sample deployment *)

(** C5 on the sample deployment: the lookup of "u2" meets a refused
    connection and the lookup of "nobody" finds no user; the caller gets
    the same value from both. *)
Lemma GetUser_repo_error_collapsed_witness :
  value (GetUser Demo.conn "u2" Demo.s0) =
    (None, Some (errors.New "usuario no encontrado"))
  /\ value (GetUser ctxBackground "nobody" Demo.s0) =
     value (GetUser Demo.conn "u2" Demo.s0).
Proof.
  apply (GetUser_repo_error_collapsed (C := Demo.collaborators)
           Demo.conn ctxBackground "u2" "nobody" Demo.s0 Demo.s0
           Demo.connRefused Demo.userNotFound);
    [discriminate | discriminate | reflexivity | reflexivity].
Defined.

(** C1 on the sample deployment: title "Hello", content "World", no
    image. *)
Lemma Create_no_image_post_fields_witness :
  validFields (Demo.postRequest "Hello" "World" [])
              (Demo.form "Hello" "World" [])
  /\ exists p post err,
      List.filter isRepoCreate
        (events (Create (Demo.postRequest "Hello" "World" []) Demo.s0)) =
        [EvRepoCreate Demo.conn p (Some post) err]
      /\ Title post = "Hello"
      /\ Content post = "World"
      /\ ImageURL post = ""
      /\ Likes post = 0%Z
      /\ Dislikes post = 0%Z
      /\ IsFlagged post = false
      /\ CreatedAt post = UpdatedAt post.
Proof.
  assert (validFields (Demo.postRequest "Hello" "World" [])
                      (Demo.form "Hello" "World" [])) as Hv
    by (repeat split; vm_compute; discriminate).
  split; [exact Hv|].
  apply (Create_no_image_post_fields (C := Demo.collaborators)
           (Demo.postRequest "Hello" "World" [])
           (Demo.form "Hello" "World" []) Demo.s0 Hv).
  reflexivity.
Defined.

(** C10 on the sample deployment: the image part is there, and its
    temporary file cannot be opened. *)
Lemma Create_image_error_discarded_witness :
  http.FormFile (Demo.form "Hello" "World" [Demo.lostPart]) "image" =
    inl Demo.lostFile
  /\ Create (Demo.postRequest "Hello" "World" [Demo.lostPart]) Demo.s0 =
     (ParseMultipartForm (Demo.postRequest "Hello" "World" [Demo.lostPart])
                         tenMiB ;;;
      createTail (Demo.postRequest "Hello" "World" [Demo.lostPart])
                 (http.FormValue (Demo.form "Hello" "World" [Demo.lostPart])
                                 "title")
                 (http.FormValue (Demo.form "Hello" "World" [Demo.lostPart])
                                 "content") "") Demo.s0
  /\ List.filter isUpload
       (events (Create (Demo.postRequest "Hello" "World" [Demo.lostPart])
                       Demo.s0)) = []
  /\ exists p post err,
       List.filter isRepoCreate
         (events (Create (Demo.postRequest "Hello" "World" [Demo.lostPart])
                         Demo.s0)) =
         [EvRepoCreate Demo.conn p (Some post) err]
       /\ ImageURL post = ""
       /\ respStatus
            (rw (state (Create (Demo.postRequest "Hello" "World"
                                  [Demo.lostPart]) Demo.s0))) =
          Some (tailStatus err)
       /\ (forall e', err = Some e' ->
           respBody
             (rw (state (Create (Demo.postRequest "Hello" "World"
                                   [Demo.lostPart]) Demo.s0))) =
           respBody (rw Demo.s0) +:+ "No se pudo crear el post" +:+ LF).
Proof.
  split; [reflexivity|].
  apply (Create_image_error_discarded (C := Demo.collaborators)
           (Demo.postRequest "Hello" "World" [Demo.lostPart])
           (Demo.form "Hello" "World" [Demo.lostPart]) Demo.lostFile Demo.s0);
    [repeat split; vm_compute; discriminate | reflexivity | reflexivity].
Defined.

(** C2 on the sample deployment: the title is empty. *)
Lemma Create_empty_field_400_witness :
  http.FormValue (Demo.form "" "World" []) "title" = ""
  /\ respStatus (rw (state (Create (Demo.postRequest "" "World" []) Demo.s0)))
     = Some http.StatusBadRequest
  /\ List.filter isRepoCreate
       (events (Create (Demo.postRequest "" "World" []) Demo.s0)) = []
  /\ heap (state (Create (Demo.postRequest "" "World" []) Demo.s0)) =
     heap Demo.s0
  /\ (forall form,
        isMultipart (Demo.postRequest "" "World" []) = true ->
        bodyParse (Demo.postRequest "" "World" []) tenMiB = inr form ->
        respBody (rw (state (Create (Demo.postRequest "" "World" [])
                                    Demo.s0))) =
        respBody (rw Demo.s0) +:+ "title y content son obligatorios" +:+ LF).
Proof.
  split; [reflexivity|].
  apply (Create_empty_field_400 (C := Demo.collaborators)
           (Demo.postRequest "" "World" []) Demo.s0);
    [reflexivity | intros form [= <-]; left; reflexivity].
Defined.

(** C4 on the sample deployment: the image host refuses the file with
    descriptor 0. *)
Lemma Create_upload_error_500_witness :
  In (EvUpload Demo.conn {| fd := 0 |}
               (uploadParamsAt {| sec := Demo.epoch; nsec := 0 |})
               (inl Demo.badKey))
     (events (Create (Demo.postRequest "Hello" "World" [Demo.imagePart 0])
                     Demo.s0))
  /\ respStatus
       (rw (state (Create (Demo.postRequest "Hello" "World"
                             [Demo.imagePart 0]) Demo.s0))) =
     Some http.StatusInternalServerError
  /\ List.filter isRepoCreate
       (events (Create (Demo.postRequest "Hello" "World" [Demo.imagePart 0])
                       Demo.s0)) = []
  /\ heap (state (Create (Demo.postRequest "Hello" "World"
                            [Demo.imagePart 0]) Demo.s0)) = heap Demo.s0.
Proof.
  assert (In (EvUpload Demo.conn {| fd := 0 |}
                (uploadParamsAt {| sec := Demo.epoch; nsec := 0 |})
                (inl Demo.badKey))
             (events (Create (Demo.postRequest "Hello" "World"
                                [Demo.imagePart 0]) Demo.s0))) as Hin
    by (vm_compute; auto).
  split; [exact Hin|].
  apply (Create_upload_error_500 (C := Demo.collaborators)
           (Demo.postRequest "Hello" "World" [Demo.imagePart 0]) Demo.s0
           Demo.conn {| fd := 0 |}
           (uploadParamsAt {| sec := Demo.epoch; nsec := 0 |}) Demo.badKey);
    [reflexivity | exact Hin].
Defined.


(** C3 (the upload half fails): on the sample deployment the image host
    refuses two files with two errors; both answers have status 500, each
    body is "Error subiendo imagen: " followed by the message of its own
    upload error, so the two bodies differ, and nothing is logged. *)
Theorem Create_upload_error_leaks :
  let out0 := Create (Demo.postRequest "Hello" "World" [Demo.imagePart 0])
                     Demo.s0 in
  let out1 := Create (Demo.postRequest "Hello" "World" [Demo.imagePart 1])
                     Demo.s0 in
  respStatus (rw (state out0)) = Some http.StatusInternalServerError
  /\ respStatus (rw (state out1)) = Some http.StatusInternalServerError
  /\ respBody (rw (state out0)) =
     "Error subiendo imagen: " +:+ Error Demo.badKey +:+ LF
  /\ respBody (rw (state out1)) =
     "Error subiendo imagen: " +:+ Error Demo.hostDown +:+ LF
  /\ String.eqb (respBody (rw (state out0))) (respBody (rw (state out1)))
     = false
  /\ List.filter isLog (events out0) = []
  /\ List.filter isLog (events out1) = [].
Proof.
  vm_compute. repeat split.
Qed.

(** * Further properties of the handlers *)

Section MoreProperties.

Context {W : Type} {C : Collaborators W}.

(** ** Runs in closed form *)

Lemma httpError_out (msg : string) (code : Z) (s : State W) :
  httpError msg code s =
  {| value := tt;
     state := setRw s (errorWriter msg code (rw s));
     events := [] |}.
Proof.
  unfold httpError, bind, errorWriter, setRw. simpl.
  destruct (respStatus (rw s)); reflexivity.
Qed.

Lemma createTail_out (r : Request) (title content imageURL : string)
  (s : State W) :
  createTail r title content imageURL s =
  let post := literalPost title content imageURL (readingAt s) in
  let call := saveCall (reqContext r) post (afterReading s) in
  {| value := tt;
     state :=
       {| world := snd call;
          heap := snd (fst call);
          rw := match fst (fst call) with
                | Some _ =>
                    errorWriter "No se pudo crear el post"
                                http.StatusInternalServerError (rw s)
                | None =>
                    jsonWriter http.StatusCreated
                               (encodedAt (newLoc s) (snd (fst call))) (rw s)
                end |};
     events := EvNow (readingAt s)
               :: EvRepoCreate (reqContext r) (newLoc s) (Some post)
                               (fst (fst call))
               :: tailLog (fst (fst call)) |}.
Proof.
  cbv zeta.
  unfold createTail, bind, timeNow, newPost, CreatePost, bind, repoCreateCall,
    saveCall, readingAt, afterReading, newLoc.
  destruct (clock (world s)) as [now w1]. simpl.
  rewrite lookup_insert_eq.
  destruct (repoCreate _ _ _ _) as [[[e|] h2] w2]; simpl.
  - unfold errorWriter, setRw. simpl.
    destruct (respStatus (rw s)); reflexivity.
  - unfold encodePost, writeBody, jsonWriter, encodedAt, setRw. simpl.
    destruct (respStatus (rw s)); reflexivity.
Qed.

Lemma upload_out (r : Request) (title content : string) (f : File)
  (s : State W) :
  (ParseMultipartForm r tenMiB ;;;
   deferring (fileClose f)
     (t <- timeNow ;;
      res <- Upload (reqContext r) f (uploadParamsAt t) ;;
      match res with
      | inl err =>
          httpError ("Error subiendo imagen: " +:+ Error err)
                    http.StatusInternalServerError
      | inr res => createTail r title content (SecureURL res)
      end)) s =
  let up := uploadCall (reqContext r) f s in
  let s2 := setWorld s (snd up) in
  match fst up with
  | inl err =>
      {| value := tt;
         state := setRw s2 (errorWriter ("Error subiendo imagen: "
                                         +:+ Error err)
                              http.StatusInternalServerError (rw s));
         events := [EvParseMultipartForm tenMiB; EvNow (readingAt s);
                    EvUpload (reqContext r) f (uploadParamsAt (readingAt s))
                             (inl err);
                    EvClose f] |}
  | inr ur =>
      let tail := createTail r title content (SecureURL ur) s2 in
      {| value := tt;
         state := state tail;
         events := EvParseMultipartForm tenMiB :: EvNow (readingAt s)
                   :: EvUpload (reqContext r) f (uploadParamsAt (readingAt s))
                               (inr ur)
                   :: (events tail ++ [EvClose f])%list |}
  end.
Proof.
  cbv zeta. rewrite parse_then.
  unfold deferring, bind, timeNow, Upload, fileClose, emit, ret, uploadCall,
    readingAt, afterReading.
  destruct (clock (world s)) as [t w1]. cbn -[createTail httpError].
  destruct (cldUpload _ _ _ _) as [[err|ur] w2]; cbn -[createTail httpError].
  - rewrite httpError_out. reflexivity.
  - change (setWorld (setWorld s w1) w2) with (setWorld s w2).
    destruct (createTail r title content (SecureURL ur) (setWorld s w2))
      as [[] st evs]. reflexivity.
Qed.

(** The eight ways through [Create], each with the run in closed form. *)
Ltac create_cases r s :=
  let Hm := fresh "Hm" in
  let Hp := fresh "Hp" in
  let Hv := fresh "Hv" in
  let Hfile := fresh "Hfile" in
  let Hempty := fresh "Hempty" in
  let Hup := fresh "Hup" in
  let Hsave := fresh "Hsave" in
  let form := fresh "form" in
  let f := fresh "f" in
  let perr := fresh "perr" in
  let ferr := fresh "ferr" in
  let uerr := fresh "uerr" in
  let serr := fresh "serr" in
  let ur := fresh "ur" in
  destruct (Create_paths r s)
    as [(Hm & ->) | [(perr & Hm & Hp & ->) | [(form & Hm & Hp & Hempty & ->)
       | [(form & ferr & Hv & Hfile & ->) | (form & f & Hv & Hfile & ->)]]]];
  [ rewrite httpError_out
  | rewrite parse_then, httpError_out
  | rewrite parse_then, httpError_out
  | rewrite parse_then, createTail_out; cbv zeta;
    destruct (fst (fst (saveCall _ _ _))) as [serr|] eqn:Hsave
  | rewrite upload_out; cbv zeta;
    destruct (fst (uploadCall (reqContext r) f s)) as [uerr|ur] eqn:Hup;
    [ | rewrite createTail_out; cbv zeta;
        destruct (fst (fst (saveCall _ _ _))) as [serr|] eqn:Hsave ] ];
  cbn [events state value rw heap world setRw tailLog app].

Lemma errorWriter_fresh (msg : string) (code : Z) (w : ResponseWriter) :
  respStatus w = None ->
  respStatus (errorWriter msg code w) = Some code
  /\ respHeader (errorWriter msg code w) !! "Content-Type" =
     Some ["text/plain; charset=utf-8"]
  /\ respHeader (errorWriter msg code w) !! "X-Content-Type-Options" =
     Some ["nosniff"]
  /\ respHeader (errorWriter msg code w) !! "Content-Length" = None.
Proof.
  intros Hfresh. unfold errorWriter. cbn [respStatus respHeader].
  rewrite Hfresh. split; [reflexivity|].
  rewrite lookup_insert_ne by done. rewrite lookup_insert_eq.
  rewrite lookup_insert_eq.
  do 2 rewrite lookup_insert_ne by done. rewrite lookup_delete_eq.
  auto.
Qed.

Lemma jsonWriter_fresh (code : Z) (text : string) (w : ResponseWriter) :
  respStatus w = None ->
  respStatus (jsonWriter code text w) = Some code
  /\ respHeader (jsonWriter code text w) !! "Content-Type" =
     Some ["application/json"].
Proof.
  intros Hfresh. unfold jsonWriter. cbn [respStatus respHeader].
  rewrite Hfresh, lookup_insert_eq. auto.
Qed.

(** X3: the answer of [Create] is either 201 with content type
    [application/json], or 400 or 500 written by [http.Error], with content
    type [text/plain; charset=utf-8] and [X-Content-Type-Options: nosniff]:
    an error answer is never a JSON object. *)
Theorem Create_answer_kinds (r : Request) (s : State W) :
  respStatus (rw s) = None ->
  let w := rw (state (Create r s)) in
  (respStatus w = Some http.StatusCreated
   /\ respHeader w !! "Content-Type" = Some ["application/json"])
  \/ ((respStatus w = Some http.StatusBadRequest
       \/ respStatus w = Some http.StatusInternalServerError)
      /\ respHeader w !! "Content-Type" = Some ["text/plain; charset=utf-8"]
      /\ respHeader w !! "X-Content-Type-Options" = Some ["nosniff"]).
Proof.
  intros Hfresh. cbv zeta. create_cases r s.
  all: try (right;
            match goal with
            | |- context [errorWriter ?m ?c ?w] =>
                destruct (errorWriter_fresh m c w Hfresh)
                  as (-> & -> & -> & _)
            end; auto).
  all: left;
    match goal with
    | |- context [jsonWriter ?c ?t ?w] =>
        destruct (jsonWriter_fresh c t w Hfresh) as (-> & ->)
    end; auto.
Qed.

Ltac writer_facts H :=
  repeat match goal with
  | |- context [respStatus (errorWriter ?m ?c ?w)] =>
      rewrite (proj1 (errorWriter_fresh m c w H))
  | Hx : context [respStatus (errorWriter ?m ?c ?w)] |- _ =>
      rewrite (proj1 (errorWriter_fresh m c w H)) in Hx
  | |- context [respStatus (jsonWriter ?c ?t ?w)] =>
      rewrite (proj1 (jsonWriter_fresh c t w H))
  | Hx : context [respStatus (jsonWriter ?c ?t ?w)] |- _ =>
      rewrite (proj1 (jsonWriter_fresh c t w H)) in Hx
  end.

(** X1: a request whose content type does not start with
    [multipart/form-data] (a missing header included) is answered 400 with
    the fixed message; nothing is called, not even the form parser, and
    the heap and the world are left alone. *)
Theorem Create_wrong_content_type (r : Request) (s : State W) :
  isMultipart r = false ->
  respStatus (rw s) = None ->
  events (Create r s) = []
  /\ respStatus (rw (state (Create r s))) = Some http.StatusBadRequest
  /\ respBody (rw (state (Create r s))) =
     respBody (rw s) +:+ "Content-Type debe ser multipart/form-data" +:+ LF
  /\ heap (state (Create r s)) = heap s
  /\ world (state (Create r s)) = world s.
Proof.
  intros Hm Hfresh. rewrite (Create_not_multipart r s Hm), httpError_out.
  cbn [events state rw heap world setRw]. writer_facts Hfresh.
  repeat split.
Qed.

(** X2: when [Create] answers 400, it has called nothing but the form
    parser (no clock, no upload, no repository), and the heap and the
    world are as before. *)
Theorem Create_rejection_touches_nothing (r : Request) (s : State W) :
  respStatus (rw s) = None ->
  respStatus (rw (state (Create r s))) = Some http.StatusBadRequest ->
  (events (Create r s) = []
   \/ events (Create r s) = [EvParseMultipartForm tenMiB])
  /\ heap (state (Create r s)) = heap s
  /\ world (state (Create r s)) = world s.
Proof.
  intros Hfresh. create_cases r s; intros Hst; writer_facts Hfresh;
    try discriminate; auto.
Qed.

(** X4: [Create] answers 201 only after a call to the repository's create
    operation that returned no error. *)
Theorem Create_201_only_after_save (r : Request) (s : State W) :
  respStatus (rw s) = None ->
  respStatus (rw (state (Create r s))) = Some http.StatusCreated ->
  exists p post,
    In (EvRepoCreate (reqContext r) p (Some post) None) (events (Create r s)).
Proof.
  intros Hfresh. create_cases r s; intros Hst; writer_facts Hfresh;
    try discriminate; eexists _, _; simpl; eauto 10.
Qed.

(** X5: when the save succeeds, the answer is 201 with content type
    [application/json], and its body is the JSON text of the post the
    pointer leads to after the repository's call (so it shows what the
    repository wrote into the post), followed by a line feed. *)
Theorem Create_created_answer (r : Request) (s : State W)
  (ctx : Context) (p : loc) (v : option Post) :
  respStatus (rw s) = None ->
  In (EvRepoCreate ctx p v None) (events (Create r s)) ->
  respStatus (rw (state (Create r s))) = Some http.StatusCreated
  /\ respHeader (rw (state (Create r s))) !! "Content-Type" =
     Some ["application/json"]
  /\ respBody (rw (state (Create r s))) =
     respBody (rw s) +:+ encodedAt p (heap (state (Create r s))) +:+ LF.
Proof.
  intros Hfresh. create_cases r s; cbn [In]; intros Hin;
    repeat match goal with
           | H : _ \/ _ |- _ => destruct H
           | H : False |- _ => destruct H
           | H : _ = EvRepoCreate _ _ _ _ |- _ =>
               first [discriminate H | injection H as <- <- <-]
           end.
  all: match goal with
       | |- context [jsonWriter ?c ?t ?w] =>
           destruct (jsonWriter_fresh c t w Hfresh) as (-> & ->)
       end; auto.
Qed.

(** X6: when the save fails, on any path (with or without an uploaded
    image), the answer is 500, its body is the fixed message and does not
    depend on the error, and the error's message is logged. *)
Theorem Create_save_failure_answer (r : Request) (s : State W)
  (ctx : Context) (p : loc) (v : option Post) (e : error) :
  respStatus (rw s) = None ->
  In (EvRepoCreate ctx p v (Some e)) (events (Create r s)) ->
  respStatus (rw (state (Create r s))) = Some http.StatusInternalServerError
  /\ respBody (rw (state (Create r s))) =
     respBody (rw s) +:+ "No se pudo crear el post" +:+ LF
  /\ In (EvLog ("Error creando post: " +:+ Error e)) (events (Create r s)).
Proof.
  intros Hfresh. create_cases r s; cbn [In]; intros Hin;
    repeat match goal with
           | H : _ \/ _ |- _ => destruct H
           | H : False |- _ => destruct H
           | H : _ = EvRepoCreate _ _ _ _ |- _ =>
               first [discriminate H | injection H as <- <- <- <-]
           end.
  all: writer_facts Hfresh; auto 10.
Qed.

Lemma newLoc_free (s : State W) : heap s !! newLoc s = None.
Proof.
  unfold newLoc. apply not_elem_of_dom, is_fresh.
Qed.

(** X8: every post [Create] hands to the repository's create operation,
    with or without an image, is handed over with the context of the
    request, lives in a cell that held no post before, has a non-empty
    title and a non-empty content, an empty identifier, zero [Likes] and
    [Dislikes], [IsFlagged] false and [CreatedAt] equal to [UpdatedAt]. *)
Theorem Create_saved_post_invariant (r : Request) (s : State W)
  (ctx : Context) (p : loc) (v : option Post) (err : option error) :
  In (EvRepoCreate ctx p v err) (events (Create r s)) ->
  ctx = reqContext r
  /\ heap s !! p = None
  /\ exists post,
       v = Some post
       /\ Title post <> "" /\ Content post <> "" /\ ID post = ""
       /\ Likes post = 0%Z /\ Dislikes post = 0%Z /\ IsFlagged post = false
       /\ CreatedAt post = UpdatedAt post.
Proof.
  create_cases r s; cbn [In]; intros Hin;
    repeat match goal with
           | H : _ \/ _ |- _ => destruct H
           | H : False |- _ => destruct H
           | H : _ = EvRepoCreate _ _ _ _ |- _ =>
               first [discriminate H | injection H as <- <- <- <-]
           end.
  all: destruct Hv as (_ & _ & Ht & Hc).
  all: split; [reflexivity|];
    split; [first [apply newLoc_free | apply (newLoc_free (setWorld s _))]|].
  all: eexists; split; [reflexivity|]; repeat split; assumption.
Qed.

(** X9: the [ImageURL] of a post handed to the repository is empty and no
    upload was made, or one upload was made, it succeeded, and the
    [ImageURL] is the secure URL the image host returned. *)
Theorem Create_image_url_provenance (r : Request) (s : State W)
  (ctx : Context) (p : loc) (post : Post) (err : option error) :
  In (EvRepoCreate ctx p (Some post) err) (events (Create r s)) ->
  (ImageURL post = "" /\ List.filter isUpload (events (Create r s)) = [])
  \/ (exists f params ur,
        List.filter isUpload (events (Create r s)) =
          [EvUpload (reqContext r) f params (inr ur)]
        /\ ImageURL post = SecureURL ur).
Proof.
  create_cases r s; cbn [In]; intros Hin;
    repeat match goal with
           | H : _ \/ _ |- _ => destruct H
           | H : False |- _ => destruct H
           | H : _ = EvRepoCreate _ _ _ _ |- _ =>
               first [discriminate H | injection H as <- <- <- <-]
           end.
  all: first [ left; split; reflexivity
             | right; eexists _, _, _; split; reflexivity ].
Qed.

(** X10: when the image can be opened and the upload succeeds, the upload
    is made once, into the folder [posts_images], under the public id
    [post_] followed by the Unix seconds of the clock reading taken for it,
    with overwriting on; the post is then saved once, with the secure URL
    the host returned as its [ImageURL] and the next clock reading as its
    timestamps. *)
Theorem Create_upload_success (r : Request) (form : Form) (f : File)
  (ur : UploadResult) (s : State W) :
  validFields r form ->
  http.FormFile form "image" = inr f ->
  fst (uploadCall (reqContext r) f s) = inr ur ->
  List.filter isUpload (events (Create r s)) =
    [EvUpload (reqContext r) f
       {| Folder := "posts_images";
          PublicID := "post_" +:+ fmt_d (sec (readingAt s));
          Overwrite := Some true |}
       (inr ur)]
  /\ exists p post err,
       List.filter isRepoCreate (events (Create r s)) =
         [EvRepoCreate (reqContext r) p (Some post) err]
       /\ ImageURL post = SecureURL ur
       /\ Title post = http.FormValue form "title"
       /\ Content post = http.FormValue form "content"
       /\ CreatedAt post =
          readingAt (setWorld s (snd (uploadCall (reqContext r) f s))).
Proof.
  intros Hv Hfile Hup. rewrite (Create_with_file r form f s Hv Hfile).
  rewrite upload_out. cbv zeta. rewrite Hup, createTail_out. cbv zeta.
  cbn [events].
  destruct (fst (fst (saveCall _ _ _))) as [serr|];
    (split; [reflexivity|]; eexists _, _, _; split; [reflexivity|];
     repeat split).
Qed.

(** X11: on a request that passes the field checks, the file [FormFile]
    opened is closed exactly once, as the last call of the handler,
    whether the upload fails, the save fails or both succeed; when no file
    was opened, nothing is closed. *)
Theorem Create_closes_file (r : Request) (form : Form) (s : State W) :
  validFields r form ->
  match http.FormFile form "image" with
  | inr f =>
      List.filter isClose (events (Create r s)) = [EvClose f]
      /\ last (events (Create r s)) = Some (EvClose f)
  | inl _ => List.filter isClose (events (Create r s)) = []
  end.
Proof.
  intros Hv. destruct (http.FormFile form "image") as [ferr|f] eqn:Hfile.
  - rewrite (Create_without_file r form ferr s Hv Hfile).
    rewrite parse_then, createTail_out. cbv zeta. cbn [events].
    destruct (fst (fst (saveCall _ _ _))); reflexivity.
  - rewrite (Create_with_file r form f s Hv Hfile).
    rewrite upload_out. cbv zeta.
    destruct (fst (uploadCall _ _ _)) as [uerr|ur]; [split; reflexivity|].
    rewrite createTail_out. cbv zeta. cbn [events].
    destruct (fst (fst (saveCall _ _ _))); split; reflexivity.
Qed.

(** X7: every call [Create] makes to the image host or to the repository
    is given the context of the request. *)
Theorem Create_contexts_are_the_request_context (r : Request) (s : State W) :
  Forall (fun ev => forall ctx, callContext ev = Some ctx -> ctx = reqContext r)
         (events (Create r s)).
Proof.
  apply Forall_forall. intros ev Hin ctx Hctx.
  apply list_elem_of_In in Hin.
  exact (Create_calls_request_context r s ev ctx Hin Hctx).
Qed.

(** ** The GetAll flow *)

Lemma GetAll_out (r : Request) (s : State W) :
  GetAll r s =
  let call := repoGetAll context.Background (heap s) (world s) in
  let posts := fst (fst (fst call)) in
  let err := snd (fst (fst call)) in
  {| value := tt;
     state :=
       {| world := snd call;
          heap := snd (fst call);
          rw := match err with
                | Some _ =>
                    jsonWriter http.StatusInternalServerError errorObject
                               (rw s)
                | None =>
                    jsonWriter http.StatusOK
                      match posts with
                      | Some l => jsonPosts (map (fun p => snd (fst call) !! p) l)
                      | None => jsonNull
                      end
                      (rw s)
                end |};
     events := EvRepoGetAll context.Background err
               :: match err with
                  | Some e => [EvLog ("Error obteniendo posts: " +:+ Error e)]
                  | None => []
                  end |}.
Proof.
  cbv zeta. unfold GetAll, GetAllPosts, bind, repoGetAllCall.
  destruct (repoGetAll context.Background (heap s) (world s))
    as [[[posts [e|]] h'] w']; simpl.
  - unfold jsonWriter, setRw. simpl.
    destruct (respStatus (rw s)); reflexivity.
  - unfold encodePosts, writeBody, jsonWriter, setRw. simpl.
    destruct (respStatus (rw s)); reflexivity.
Qed.

(** X12: when the repository fails to list the posts, [GetAll] logs the
    error's message and answers 500 with content type [application/json]
    and the fixed JSON object as body, whatever the error is; it makes no
    other call. *)
Theorem GetAll_failure_answer (r : Request) (s : State W) (e : error) :
  respStatus (rw s) = None ->
  snd (fst (fst (repoGetAll context.Background (heap s) (world s)))) = Some e ->
  respStatus (rw (state (GetAll r s))) = Some http.StatusInternalServerError
  /\ respHeader (rw (state (GetAll r s))) !! "Content-Type" =
     Some ["application/json"]
  /\ respBody (rw (state (GetAll r s))) = respBody (rw s) +:+ errorObject +:+ LF
  /\ events (GetAll r s) =
     [EvRepoGetAll context.Background (Some e);
      EvLog ("Error obteniendo posts: " +:+ Error e)].
Proof.
  intros Hfresh He. rewrite GetAll_out. cbv zeta. rewrite He.
  cbn [events state rw].
  destruct (jsonWriter_fresh http.StatusInternalServerError errorObject
              (rw s) Hfresh) as (-> & ->).
  auto.
Qed.

(** X13: when the repository lists the posts, [GetAll] answers 200 with
    content type [application/json] and logs nothing.  When the slice
    returned is nil the body is [null]; when it is not nil (empty or not)
    the body is the JSON text of the posts its pointers lead to in the heap
    the repository left, in the order returned.  A line feed follows. *)
Theorem GetAll_success_answer (r : Request) (s : State W) :
  respStatus (rw s) = None ->
  snd (fst (fst (repoGetAll context.Background (heap s) (world s)))) = None ->
  let call := repoGetAll context.Background (heap s) (world s) in
  respStatus (rw (state (GetAll r s))) = Some http.StatusOK
  /\ respHeader (rw (state (GetAll r s))) !! "Content-Type" =
     Some ["application/json"]
  /\ respBody (rw (state (GetAll r s))) =
     respBody (rw s)
     +:+ match fst (fst (fst call)) with
         | Some l =>
             jsonPosts (map (fun p => heap (state (GetAll r s)) !! p) l)
         | None => "null"
         end
     +:+ LF
  /\ heap (state (GetAll r s)) = snd (fst call)
  /\ events (GetAll r s) = [EvRepoGetAll context.Background None].
Proof.
  intros Hfresh He. rewrite GetAll_out. cbv zeta. rewrite He.
  cbn [events state rw heap].
  match goal with
  | |- context [jsonWriter ?c ?t ?w] =>
      destruct (jsonWriter_fresh c t w Hfresh) as (-> & ->)
  end.
  repeat split.
Qed.

(** ** The user use case *)

(** X14: [GetUser] returns either the record the repository returned,
    with no error, after one lookup with the caller's context and id; or no
    record and one of its two fixed errors.  It never returns a record
    together with an error, never an error of the repository, and on the
    empty id it makes no call. *)
Theorem GetUser_result_shape (ctx : Context) (userID : string)
  (s : State W) :
  let out := GetUser ctx userID s in
  let res := fst (repoGetUserByID ctx userID (world s)) in
  (userID = ""
   /\ value out = (None, Some (errors.New "falta el parámetro 'id'"))
   /\ events out = [])
  \/ (userID <> ""
      /\ events out = [EvRepoGetUserByID ctx userID (snd res)]
      /\ ((snd res = None /\ value out = (fst res, None))
          \/ (snd res <> None
              /\ value out =
                 (None, Some (errors.New "usuario no encontrado"))))).
Proof.
  cbv zeta. destruct (String.eqb_spec userID "") as [->|Hne].
  - left. repeat split.
  - right. split; [assumption|]. rewrite (GetUser_lookup ctx userID s Hne).
    destruct (repoGetUserByID ctx userID (world s)) as [[u [e|]] w'];
      cbn [fst snd value events]; split; try reflexivity.
    + right. split; [discriminate | reflexivity].
    + left. split; reflexivity.
Qed.

End MoreProperties.

(** ** The further statements on the sample deployments *)

(** A post is created without an image: the answer is the JSON one. *)
Lemma Create_answer_kinds_witness :
  let w := rw (state (Create (Demo.postRequest "Hello" "World" []) Demo.s0)) in
  (respStatus w = Some http.StatusCreated
   /\ respHeader w !! "Content-Type" = Some ["application/json"])
  \/ ((respStatus w = Some http.StatusBadRequest
       \/ respStatus w = Some http.StatusInternalServerError)
      /\ respHeader w !! "Content-Type" = Some ["text/plain; charset=utf-8"]
      /\ respHeader w !! "X-Content-Type-Options" = Some ["nosniff"]).
Proof.
  apply (Create_answer_kinds (C := Demo.collaborators)
           (Demo.postRequest "Hello" "World" []) Demo.s0).
  reflexivity.
Defined.

(** A request with no content type at all. *)
Lemma Create_wrong_content_type_witness :
  isMultipart Demo.getRequest = false
  /\ events (Create Demo.getRequest Demo.s0) = []
  /\ respStatus (rw (state (Create Demo.getRequest Demo.s0))) =
     Some http.StatusBadRequest
  /\ respBody (rw (state (Create Demo.getRequest Demo.s0))) =
     respBody (rw Demo.s0)
     +:+ "Content-Type debe ser multipart/form-data" +:+ LF
  /\ heap (state (Create Demo.getRequest Demo.s0)) = heap Demo.s0
  /\ world (state (Create Demo.getRequest Demo.s0)) = world Demo.s0.
Proof.
  split; [reflexivity|].
  apply (Create_wrong_content_type (C := Demo.collaborators)
           Demo.getRequest Demo.s0); reflexivity.
Defined.

(** The title is empty: 400 after the parse alone. *)
Lemma Create_rejection_touches_nothing_witness :
  respStatus (rw (state (Create (Demo.postRequest "" "World" []) Demo.s0))) =
    Some http.StatusBadRequest
  /\ (events (Create (Demo.postRequest "" "World" []) Demo.s0) = []
      \/ events (Create (Demo.postRequest "" "World" []) Demo.s0) =
         [EvParseMultipartForm tenMiB])
  /\ heap (state (Create (Demo.postRequest "" "World" []) Demo.s0)) =
     heap Demo.s0
  /\ world (state (Create (Demo.postRequest "" "World" []) Demo.s0)) =
     world Demo.s0.
Proof.
  split; [reflexivity|].
  apply (Create_rejection_touches_nothing (C := Demo.collaborators)
           (Demo.postRequest "" "World" []) Demo.s0); reflexivity.
Defined.

(** A post with an image is created. *)
Lemma Create_201_only_after_save_witness :
  respStatus (rw (state (Create (Demo.postRequest "Hello" "World"
                                   [Demo.imagePart 5]) Demo.s0))) =
    Some http.StatusCreated
  /\ exists p post,
      In (EvRepoCreate Demo.conn p (Some post) None)
         (events (Create (Demo.postRequest "Hello" "World" [Demo.imagePart 5])
                         Demo.s0)).
Proof.
  split; [reflexivity|].
  apply (Create_201_only_after_save (C := Demo.collaborators)
           (Demo.postRequest "Hello" "World" [Demo.imagePart 5]) Demo.s0);
    reflexivity.
Defined.

(** A post without an image is saved; the repository writes the
    identifier "post-1" into it before the answer is encoded. *)
Lemma Create_created_answer_witness :
  ID <$> (heap (state (Create (Demo.postRequest "Hello" "World" [])
                              Demo.s0)) !! 1%positive) = Some "post-1"
  /\ respStatus (rw (state (Create (Demo.postRequest "Hello" "World" [])
                                   Demo.s0))) = Some http.StatusCreated
  /\ respHeader (rw (state (Create (Demo.postRequest "Hello" "World" [])
                                   Demo.s0))) !! "Content-Type" =
     Some ["application/json"]
  /\ respBody (rw (state (Create (Demo.postRequest "Hello" "World" [])
                                 Demo.s0))) =
     respBody (rw Demo.s0)
     +:+ encodedAt 1%positive
           (heap (state (Create (Demo.postRequest "Hello" "World" [])
                                Demo.s0)))
     +:+ LF.
Proof.
  split; [reflexivity|].
  apply (Create_created_answer (C := Demo.collaborators)
           (Demo.postRequest "Hello" "World" []) Demo.s0 Demo.conn 1%positive
           (Some (literalPost "Hello" "World" ""
                              {| sec := Demo.epoch; nsec := 0 |})));
    [reflexivity | vm_compute; auto].
Defined.

(** The image is uploaded, then the repository refuses the post titled
    "boom". *)
Lemma Create_save_failure_answer_witness :
  List.filter isUpload
    (events (Create (Demo.postRequest "boom" "World" [Demo.imagePart 5])
                    Demo.s0)) <> []
  /\ respStatus (rw (state (Create (Demo.postRequest "boom" "World"
                                      [Demo.imagePart 5]) Demo.s0))) =
     Some http.StatusInternalServerError
  /\ respBody (rw (state (Create (Demo.postRequest "boom" "World"
                                    [Demo.imagePart 5]) Demo.s0))) =
     respBody (rw Demo.s0) +:+ "No se pudo crear el post" +:+ LF
  /\ In (EvLog ("Error creando post: " +:+ Error Demo.dbUnavailable))
        (events (Create (Demo.postRequest "boom" "World" [Demo.imagePart 5])
                        Demo.s0)).
Proof.
  split; [vm_compute; discriminate|].
  apply (Create_save_failure_answer (C := Demo.collaborators)
           (Demo.postRequest "boom" "World" [Demo.imagePart 5]) Demo.s0
           Demo.conn 1%positive
           (Some (literalPost "boom" "World"
                    "https://res.cloudinary.com/talkus/posts_images/post_1700000000"
                    {| sec := Demo.epoch + 1; nsec := 0 |}))
           Demo.dbUnavailable);
    [reflexivity | vm_compute; auto 10].
Defined.

(** The post saved for a request with an image. *)
Lemma Create_saved_post_invariant_witness :
  Demo.conn = reqContext (Demo.postRequest "Hello" "World" [Demo.imagePart 5])
  /\ heap Demo.s0 !! 1%positive = None
  /\ exists post,
      Some (literalPost "Hello" "World"
              "https://res.cloudinary.com/talkus/posts_images/post_1700000000"
              {| sec := Demo.epoch + 1; nsec := 0 |}) = Some post
      /\ Title post <> "" /\ Content post <> "" /\ ID post = ""
      /\ Likes post = 0%Z /\ Dislikes post = 0%Z /\ IsFlagged post = false
      /\ CreatedAt post = UpdatedAt post.
Proof.
  apply (Create_saved_post_invariant (C := Demo.collaborators)
           (Demo.postRequest "Hello" "World" [Demo.imagePart 5]) Demo.s0
           Demo.conn 1%positive _ None).
  vm_compute; auto 10.
Defined.

(** With an image the [ImageURL] is the host's URL; the first alternative
    does not apply. *)
Lemma Create_image_url_provenance_witness :
  (ImageURL (literalPost "Hello" "World"
               "https://res.cloudinary.com/talkus/posts_images/post_1700000000"
               {| sec := Demo.epoch + 1; nsec := 0 |}) = ""
   /\ List.filter isUpload
        (events (Create (Demo.postRequest "Hello" "World" [Demo.imagePart 5])
                        Demo.s0)) = [])
  \/ (exists f params ur,
        List.filter isUpload
          (events (Create (Demo.postRequest "Hello" "World"
                             [Demo.imagePart 5]) Demo.s0)) =
          [EvUpload (reqContext (Demo.postRequest "Hello" "World"
                                   [Demo.imagePart 5])) f params (inr ur)]
        /\ ImageURL (literalPost "Hello" "World"
               "https://res.cloudinary.com/talkus/posts_images/post_1700000000"
               {| sec := Demo.epoch + 1; nsec := 0 |}) = SecureURL ur).
Proof.
  apply (Create_image_url_provenance (C := Demo.collaborators)
           (Demo.postRequest "Hello" "World" [Demo.imagePart 5]) Demo.s0
           Demo.conn 1%positive _ None).
  vm_compute; auto 10.
Defined.

(** The file with descriptor 5 is stored by the image host. *)
Lemma Create_upload_success_witness :
  List.filter isUpload
    (events (Create (Demo.postRequest "Hello" "World" [Demo.imagePart 5])
                    Demo.s0)) =
    [EvUpload Demo.conn {| fd := 5 |}
       {| Folder := "posts_images";
          PublicID := "post_" +:+ fmt_d (sec (readingAt Demo.s0));
          Overwrite := Some true |}
       (inr {| SecureURL :=
                 "https://res.cloudinary.com/talkus/posts_images/post_1700000000" |})]
  /\ exists p post err,
       List.filter isRepoCreate
         (events (Create (Demo.postRequest "Hello" "World" [Demo.imagePart 5])
                         Demo.s0)) =
         [EvRepoCreate Demo.conn p (Some post) err]
       /\ ImageURL post =
          "https://res.cloudinary.com/talkus/posts_images/post_1700000000"
       /\ Title post = "Hello"
       /\ Content post = "World"
       /\ CreatedAt post = {| sec := Demo.epoch + 1; nsec := 0 |}.
Proof.
  apply (Create_upload_success (C := Demo.collaborators)
           (Demo.postRequest "Hello" "World" [Demo.imagePart 5])
           (Demo.form "Hello" "World" [Demo.imagePart 5]) {| fd := 5 |}
           {| SecureURL :=
                "https://res.cloudinary.com/talkus/posts_images/post_1700000000" |}
           Demo.s0);
    [repeat split; vm_compute; discriminate | reflexivity | reflexivity].
Defined.

(** The file is closed last when the upload is refused. *)
Lemma Create_closes_file_witness :
  List.filter isClose
    (events (Create (Demo.postRequest "Hello" "World" [Demo.imagePart 0])
                    Demo.s0)) = [EvClose {| fd := 0 |}]
  /\ last (events (Create (Demo.postRequest "Hello" "World"
                             [Demo.imagePart 0]) Demo.s0)) =
     Some (EvClose {| fd := 0 |}).
Proof.
  apply (Create_closes_file (C := Demo.collaborators)
           (Demo.postRequest "Hello" "World" [Demo.imagePart 0])
           (Demo.form "Hello" "World" [Demo.imagePart 0]) Demo.s0).
  repeat split; vm_compute; discriminate.
Defined.

(** The post repository is down. *)
Lemma GetAll_failure_answer_witness :
  respStatus (rw (state (GetAll (C := Outage.collaborators)
                                Demo.getRequest Demo.s0))) =
    Some http.StatusInternalServerError
  /\ respHeader (rw (state (GetAll (C := Outage.collaborators)
                                   Demo.getRequest Demo.s0)))
       !! "Content-Type" = Some ["application/json"]
  /\ respBody (rw (state (GetAll (C := Outage.collaborators)
                                 Demo.getRequest Demo.s0))) =
     respBody (rw Demo.s0) +:+ errorObject +:+ LF
  /\ events (GetAll (C := Outage.collaborators) Demo.getRequest Demo.s0) =
     [EvRepoGetAll context.Background (Some Demo.dbUnavailable);
      EvLog ("Error obteniendo posts: " +:+ Error Demo.dbUnavailable)].
Proof.
  apply (GetAll_failure_answer (C := Outage.collaborators)
           Demo.getRequest Demo.s0 Demo.dbUnavailable); reflexivity.
Defined.

(** Two posts are stored: the body lists the second, allocated last,
    before the first. *)
Lemma GetAll_success_answer_witness :
  fst (fst (fst (repoGetAll context.Background (heap Demo.s2)
                            (world Demo.s2)))) =
    Some [2%positive; 1%positive]
  /\ respStatus (rw (state (GetAll Demo.getRequest Demo.s2))) =
     Some http.StatusOK
  /\ respHeader (rw (state (GetAll Demo.getRequest Demo.s2)))
       !! "Content-Type" = Some ["application/json"]
  /\ respBody (rw (state (GetAll Demo.getRequest Demo.s2))) =
     respBody (rw Demo.s2)
     +:+ jsonPosts [Some Demo.secondPost; Some Demo.firstPost]
     +:+ LF
  /\ heap (state (GetAll Demo.getRequest Demo.s2)) = heap Demo.s2
  /\ events (GetAll Demo.getRequest Demo.s2) =
     [EvRepoGetAll context.Background None].
Proof.
  split; [reflexivity|].
  apply (GetAll_success_answer (C := Demo.collaborators)
           Demo.getRequest Demo.s2); reflexivity.
Defined.

(** No post is stored: the slice is nil and the body is [null]. *)
Example GetAll_nil_slice :
  fst (fst (fst (repoGetAll context.Background (heap Demo.s0)
                            (world Demo.s0)))) = None
  /\ respBody (rw (state (GetAll Demo.getRequest Demo.s0))) = "null" +:+ LF.
Proof. split; reflexivity. Qed.

